(** * Authentication service and controller of the video server

    A shallow embedding of [server/src/auth/authentication.service.ts] and of
    the route handlers of the auth controller ([/register], [/login],
    [/logout]), together with the properties of the credential-and-session
    subsystem that are stated about them.

    Layout: data model, the two third-party packages the code calls
    ([jsonwebtoken], [bcrypt]) as interfaces, the storage layer, a small
    state-and-exception monad for the Express handlers that tells an awaited
    call from a call whose promise is dropped, the service, the controller,
    and then the properties. *)

From Stdlib Require Import ZArith String Ascii List Lia.
From stdpp Require Import base decidable option strings gmap list.

Local Open Scope string_scope.
Local Open Scope Z_scope.
Local Open Scope list_scope.

(** ** Data model *)

(** [users.model]: the columns the auth code reads. *)
Module User.
Record t := mk { id : Z; login : string; password : string }.
End User.

(** [ICreateUserDto]: what the register handler hands to [createUser]. *)
Module ICreateUserDto.
Record t := mk { login : string; password : string }.
End ICreateUserDto.

(** [IUserPayload]: the identity claim put into tokens. *)
Module IUserPayload.
Record t := mk { id : Z; login : string }.
End IUserPayload.

#[global] Instance IUserPayload_eq_dec : EqDecision IUserPayload.t.
Proof. solve_decision. Defined.

#[global] Instance User_eq_dec : EqDecision User.t.
Proof. solve_decision. Defined.

(** A JSON web token, kept structured: the claims that [jwt.sign] writes
    (the payload, [iat] and [exp], both in seconds) and the signature over
    them.  The base64url wire encoding is not modelled; every consumer but
    the signer treats a token as an opaque value. *)
Module Jwt.
Record t := mk { payload : IUserPayload.t; iat : Z; exp : Z; signature : string }.
Definition signing_input (tok : t) : IUserPayload.t * Z * Z :=
    (payload tok, iat tok, exp tok).
End Jwt.

#[global] Instance Jwt_eq_dec : EqDecision Jwt.t.
Proof. solve_decision. Defined.

(** Session Registry row ([tokens.model]): the refresh token and its owner. *)
Module Token.
Record t := mk { token : Jwt.t; user_id : Z }.
End Token.

#[global] Instance Token_eq_dec : EqDecision Token.t.
Proof. solve_decision. Defined.

(** What a JavaScript call can throw here. *)
Inductive Exn : Type :=
| Error (message : string)
| TypeError (message : string)
| JsonWebTokenError (message : string)
| TokenExpiredError
| QueryFailedError
| AppError (statusCode : Z) (message : string).

Inductive result (A : Type) : Type :=
| Ok (a : A)
| Throw (e : Exn).
Arguments Ok {A} a.
Arguments Throw {A} e.

Definition is_ok {A} (r : result A) : bool :=
  match r with Ok _ => true | Throw _ => false end.

(** ** Third-party packages, as interfaces *)

(** The keyed signature of [jsonwebtoken] (HS256 by default): secret and
    signing input to tag. *)
Class JwtMac := hmac : string -> IUserPayload.t * Z * Z -> string.

(** [bcrypt.hash(data, rounds)] draws a salt; the draw is an explicit
    argument.  [bcrypt.compare(data, encrypted)]. *)
Class Bcrypt := {
  bcrypt_hash : string -> Z -> string -> string;
  bcrypt_compare : string -> string -> bool
}.

(** *** The time spans of [jsonwebtoken]

    [expiresIn] strings go through the [ms] package and come back in
    milliseconds.  The fragment modelled is a run of decimal digits,
    optional spaces, and a lower-case unit name of the package's table (no
    unit is milliseconds); signs, decimal points and upper case are left
    out. *)

Definition digit_value (c : ascii) : option Z :=
  let n := Z.of_N (N_of_ascii c) in
  if (48 <=? n) && (n <=? 57) then Some (n - 48) else None.

Definition ms_units : list (list string * Z) :=
  [ (["milliseconds"; "millisecond"; "msecs"; "msec"; "ms"], 1);
    (["seconds"; "second"; "secs"; "sec"; "s"], 1000);
    (["minutes"; "minute"; "mins"; "min"; "m"], 1000 * 60);
    (["hours"; "hour"; "hrs"; "hr"; "h"], 1000 * 60 * 60);
    (["days"; "day"; "d"], 1000 * 60 * 60 * 24);
    (["weeks"; "week"; "w"], 1000 * 60 * 60 * 24 * 7);
    (["years"; "year"; "yrs"; "yr"; "y"], 31557600000) ].

Definition unit_ms (u : string) : option Z :=
  match u with
  | EmptyString => Some 1
  | _ =>
      match List.find (fun row => List.existsb (String.eqb u) (fst row)) ms_units with
      | Some row => Some (snd row)
      | None => None
      end
  end.

Fixpoint ms_digits (s : string) (acc : Z) : Z * string :=
  match s with
  | String c rest =>
      match digit_value c with
      | Some d => ms_digits rest (10 * acc + d)
      | None => (acc, s)
      end
  | EmptyString => (acc, s)
  end.

Fixpoint skip_spaces (s : string) : string :=
  match s with
  | String " " rest => skip_spaces rest
  | _ => s
  end.

Definition ms (s : string) : option Z :=
  match s with
  | String c _ =>
      match digit_value c with
      | Some _ =>
          let '(n, u) := ms_digits s 0 in
          match unit_ms (skip_spaces u) with
          | Some k => Some (n * k)
          | None => None
          end
      | None => None
      end
  | EmptyString => None
  end.

(** [timespan(time, iat)] of [jsonwebtoken]:
    [Math.floor(timestamp + milliseconds / 1000)]; the milliseconds of the
    fragment above are whole seconds or a fraction that the floor drops. *)
Definition timespan (time : string) (iat : Z) : option Z :=
  match ms time with
  | Some milliseconds => Some ((iat * 1000 + milliseconds) / 1000)
  | None => None
  end.

(** A secret "has a value" for [jsonwebtoken] when it is neither
    [undefined] nor the empty string. *)
Definition has_value (secret : option string) : option string :=
  match secret with
  | Some (String c s) => Some (String c s)
  | _ => None
  end.

(** [jwt.sign(payload, secretOrPrivateKey, { expiresIn })] at clock reading
    [now] (milliseconds, as [Date.now()]). *)
Definition jwt_sign `{JwtMac} (payload : IUserPayload.t)
    (secretOrPrivateKey : option string) (expiresIn : string) (now : Z)
  : result Jwt.t :=
  match has_value secretOrPrivateKey with
  | None => Throw (Error "secretOrPrivateKey must have a value")
  | Some key =>
      let iat := now / 1000 in
      match timespan expiresIn iat with
      | None => Throw (Error "expiresIn should be a number of seconds or string representing a timespan")
      | Some exp => Ok (Jwt.mk payload iat exp (hmac key (payload, iat, exp)))
      end
  end.

(** [jwt.verify(token, secretOrPublicKey)] at clock reading [now]: the
    signature first, then the expiry ([clockTimestamp >= exp] is expired). *)
Definition jwt_verify `{JwtMac} (token : Jwt.t) (secretOrPublicKey : option string)
    (now : Z) : result IUserPayload.t :=
  match has_value secretOrPublicKey with
  | None => Throw (JsonWebTokenError "secret or public key must be provided")
  | Some key =>
      if bool_decide (Jwt.signature token = hmac key (Jwt.signing_input token)) then
        if Jwt.exp token <=? now / 1000 then Throw TokenExpiredError
        else Ok (Jwt.payload token)
      else Throw (JsonWebTokenError "invalid signature")
  end.

(** *** The [bcrypt] package, from its digest down

    What the package documents of its output and its input: the hash is
    the string [$2b$], the cost in two digits, [$], the 22 characters of
    the salt and the digest; only the first 72 bytes of the data are used;
    [compare] reads cost and salt off the hash, hashes the data with them
    and compares the outcome with the hash, and answers [false] for a
    string that is not a hash.  The digest itself (the expensive key
    schedule) stays an interface. *)
Class BcryptCore := eksblowfish : string -> Z -> string -> string.

Fixpoint string_take (n : nat) (s : string) : string :=
  match n, s with
  | S n', String c rest => String c (string_take n' rest)
  | _, _ => EmptyString
  end.

Fixpoint strip_prefix (pre s : string) : option string :=
  match pre, s with
  | EmptyString, _ => Some s
  | String a pre', String b s' => if Ascii.eqb a b then strip_prefix pre' s' else None
  | String _ _, EmptyString => None
  end.

Definition two_digits (n : Z) : string :=
  String (ascii_of_N (Z.to_N (48 + n / 10)))
    (String (ascii_of_N (Z.to_N (48 + n mod 10))) EmptyString).

Definition bcrypt_format (rounds : Z) (salt digest : string) : string :=
  (("$2b$" ++ two_digits rounds) ++ "$" ++ salt ++ digest)%string.

Definition bcrypt_parse (encrypted : string) : option (Z * string) :=
  match strip_prefix "$2b$" encrypted with
  | Some (String c1 (String c2 after_cost)) =>
      match digit_value c1, digit_value c2, strip_prefix "$" after_cost with
      | Some d1, Some d2, Some rest =>
          let salt := string_take 22 rest in
          if (String.length salt =? 22)%nat then Some (10 * d1 + d2, salt) else None
      | _, _, _ => None
      end
  | _ => None
  end.

Definition bcrypt_of (core : BcryptCore) : Bcrypt :=
  {| bcrypt_hash := fun data rounds salt =>
       bcrypt_format rounds salt (eksblowfish (string_take 72 data) rounds salt);
     bcrypt_compare := fun data encrypted =>
       match bcrypt_parse encrypted with
       | Some (rounds, salt) =>
           bool_decide
             (bcrypt_format rounds salt (eksblowfish (string_take 72 data) rounds salt)
              = encrypted)
       | None => false
       end |}.

(** ** Storage layer

    The two tables the auth code touches, as TypeORM active records over one
    connection.  [user_seq] is the generator of [PrimaryGeneratedColumn];
    [online] says whether the connection answers: a query on a connection
    that does not answer rejects and changes nothing. *)
Record Db := mkDb {
  users : list User.t;
  user_seq : Z;
  tokens : list Token.t;
  online : bool
}.

Definition set_online (b : bool) (d : Db) : Db :=
  mkDb (users d) (user_seq d) (tokens d) b.

(** An [async] call: what it does to the storage, and what it settles to,
    once it runs. *)
Definition Promise (A : Type) : Type := Db -> result A * Db.

Definition resolved {A} (a : A) : Promise A := fun d => (Ok a, d).

Definition query {A} (q : Db -> A * Db) : Promise A :=
  fun d => if online d then let '(a, d') := q d in (Ok a, d') else (Throw QueryFailedError, d).

(** The row is the one whose two columns are the given ones. *)
Definition row_matches (token : Jwt.t) (user_id : Z) (row : Token.t) : bool :=
  bool_decide (Token.token row = token) && bool_decide (Token.user_id row = user_id).

(** ** Express: the response under construction *)

Inductive CookieValue : Type :=
| CookieToken (tok : Jwt.t)
| CookieString (s : string)
| CookieNumber (n : Z).

Record Cookie := mkCookie {
  cookie_name : string;
  cookie_value : CookieValue;
  maxAge : Z;
  httpOnly : bool;
  path : string
}.

Record Res := mkRes {
  statusCode : option Z;
  sent : option string;
  location : option string;
  cookies : list Cookie;
  cleared : list string
}.

Definition fresh_res : Res := mkRes None None None [] [].

(** ** The handler monad

    A handler runs against the storage as it is during the request, builds
    the response, and may leave promises behind: a call that is not awaited
    is started, its promise is dropped, and it settles after the handler's
    synchronous continuation, whatever it settles to. *)
Inductive Pending : Type :=
| Pend {A : Type} (p : Promise A).

Record World := mkWorld {
  db : Db;
  res : Res;
  pending : list Pending;
  logged : list Exn
}.

Definition M (A : Type) : Type := World -> result A * World.

#[global] Instance M_ret : MRet M := fun A a w => (Ok a, w).

#[global] Instance M_bind : MBind M := fun A B k m w =>
  match m w with
  | (Ok a, w') => k a w'
  | (Throw e, w') => (Throw e, w')
  end.

Definition throw {A} (e : Exn) : M A := fun w => (Throw e, w).

Definition try_catch {A} (body : M A) (handler : Exn -> M A) : M A := fun w =>
  match body w with
  | (Ok a, w') => (Ok a, w')
  | (Throw e, w') => handler e w'
  end.

(** [await p]: the promise runs now and a rejection is thrown here. *)
Definition await {A} (p : Promise A) : M A := fun w =>
  let '(r, d) := p (db w) in (r, mkWorld d (res w) (pending w) (logged w)).

(** [p] as a statement, with no [await]: started, result dropped. *)
Definition detached {A} (p : Promise A) : M unit := fun w =>
  (Ok tt, mkWorld (db w) (res w) (pending w ++ [Pend p]) (logged w)).

Definition lift {A} (r : result A) : M A := fun w => (r, w).

Definition with_res (f : Res -> Res) : M unit := fun w =>
  (Ok tt, mkWorld (db w) (f (res w)) (pending w) (logged w)).

(** [res.status(code).send(body)] *)
Definition res_status_send (code : Z) (body : string) : M unit :=
  with_res (fun r => mkRes (Some code) (Some body) (location r) (cookies r) (cleared r)).

(** [res.redirect(code, url)] *)
Definition res_redirect (code : Z) (url : string) : M unit :=
  with_res (fun r => mkRes (Some code) (sent r) (Some url) (cookies r) (cleared r)).

(** [res.cookie(name, value, options)] *)
Definition res_cookie (c : Cookie) : M unit :=
  with_res (fun r => mkRes (statusCode r) (sent r) (location r) (cookies r ++ [c]) (cleared r)).

(** [res.clearCookie(name)] *)
Definition res_clearCookie (name : string) : M unit :=
  with_res (fun r => mkRes (statusCode r) (sent r) (location r) (cookies r) (cleared r ++ [name])).

(** [logger.error(``, err)] *)
Definition logger_error (err : Exn) : M unit := fun w =>
  (Ok tt, mkWorld (db w) (res w) (pending w) (logged w ++ [err])).

(** One request: the handler from a fresh response on the storage [d]. *)
Definition handle (h : M unit) (d : Db) : World :=
  snd (h (mkWorld d fresh_res [] [])).

(** The dropped promises settle in the order they were started; what they
    settle to goes nowhere. *)
Fixpoint settle (ps : list Pending) (d : Db) : Db :=
  match ps with
  | [] => d
  | Pend p :: ps' => settle ps' (snd (p d))
  end.

(** A request and what it leaves behind, the storage being reachable or not
    ([later]) by the time the dropped promises run. *)
Definition serve (h : M unit) (d : Db) (later : bool) : Res * Db :=
  let w := handle h d in
  (res w, settle (pending w) (set_online later (db w))).

(** ** [authenticationService] *)

Module authenticationService.
Section Service.
Context `{JwtMac} `{Bcrypt}.
(** [process.env] *)
Variable env : gmap string string.

(** [User.findOne({ where: { login } })]; the controller calls it
    [getUserByLogin]. *)
Definition findUser (login : string) : Promise (option User.t) :=
  query (fun d => (List.find (fun u => bool_decide (User.login u = login)) (users d), d)).

(** [bcrypt.hash(password, 10)] *)
Definition hashPassword (password salt : string) : Promise string :=
  resolved (bcrypt_hash password 10 salt).

(** [User.create(user).save()] *)
Definition createUser (user : ICreateUserDto.t) : Promise User.t :=
  query (fun d =>
    let row := User.mk (user_seq d) (ICreateUserDto.login user) (ICreateUserDto.password user) in
    (row, mkDb (users d ++ [row]) (user_seq d + 1) (tokens d) (online d))).

(** [bcrypt.compare(password, user.password)] *)
Definition comparePasswords (user : User.t) (password : string) : Promise bool :=
  resolved (bcrypt_compare password (User.password user)).

(** [Token.create({ token, user_id }).save()]; the controller calls it
    [createToken]. *)
Definition createRefreshToken (user_id : Z) (token : Jwt.t) : Promise Token.t :=
  query (fun d =>
    let row := Token.mk token user_id in
    (row, mkDb (users d) (user_seq d) (tokens d ++ [row]) (online d))).

(** [jwt.sign(userPayload, process.env.ACCESS_SECRET_TOKEN, { expiresIn: `10s` })] *)
Definition signAccessToken (userPayload : IUserPayload.t) (now : Z) : result Jwt.t :=
  jwt_sign userPayload (env !! "ACCESS_SECRET_TOKEN") "10s" now.

(** [jwt.sign(userPayload, process.env.REFRESH_SECRET_TOKEN, { expiresIn: `15d` })] *)
Definition signRefreshToken (userPayload : IUserPayload.t) (now : Z) : result Jwt.t :=
  jwt_sign userPayload (env !! "REFRESH_SECRET_TOKEN") "15d" now.

(** Modelled from the spec: [deleteToken], which the logout handler calls
    and the service file at hand does not define.  Session Registry
    [delete(token, userId)]: removes the row matching both fields; deleting
    a row that is not there is a no-op, not an error. *)
Definition deleteToken (token : Jwt.t) (user_id : Z) : Promise unit :=
  query (fun d =>
    (tt, mkDb (users d) (user_seq d)
           (List.filter (fun row => negb (row_matches token user_id row)) (tokens d))
           (online d))).

(** Modelled from the spec: Session Registry [exists(token, userId)], a
    point lookup on both fields. *)
Definition existsToken (token : Jwt.t) (user_id : Z) (d : Db) : bool :=
  List.existsb (row_matches token user_id) (tokens d).

(** Modelled from the spec: [verifyAccess(token)], the access token
    checked under the access secret (signature, then expiry). *)
Definition verifyAccess (token : Jwt.t) (now : Z) : result IUserPayload.t :=
  jwt_verify token (env !! "ACCESS_SECRET_TOKEN") now.

(** Modelled from the spec: [verifyRefreshIsActive(token, userId)], which
    is not in the files at hand.  A refresh token is valid by signature
    and expiry under the refresh secret and by the presence of its row in
    the Session Registry. *)
Definition verifyRefreshIsActive (token : Jwt.t) (user_id : Z) (now : Z) (d : Db) : bool :=
  is_ok (jwt_verify token (env !! "REFRESH_SECRET_TOKEN") now)
  && existsToken token user_id d.

End Service.
End authenticationService.

(** ** [authController] *)

(** [req.body] of [/register] and [/login]. *)
Module Body.
Record t := mk { login : string; password : string }.
End Body.

(** [res.locals] as the [authUser] middleware leaves it for [/logout]. *)
Module Locals.
Record t := mk { auth : bool; refreshToken : Jwt.t; user : option IUserPayload.t }.
End Locals.

Module authController.
Import authenticationService.
Section Routes.
Context `{JwtMac} `{Bcrypt}.
Variable env : gmap string string.

(** [authController.post(`/register`, ...)]; [salt] is the draw of
    [bcrypt.hash]. *)
Definition post_register (body : Body.t) (salt : string) : M unit :=
  try_catch
    (let login := Body.login body in
     let password := Body.password body in
     user ← await (findUser login);
     match user with
     | Some _ => res_status_send 422 "user already exists"
     | None =>
         hashPassword ← await (hashPassword password salt);
         let newUser := ICreateUserDto.mk login hashPassword in
         detached (createUser newUser);;
         res_redirect 201 "/login"
     end)
    (fun err => logger_error err).

(** [authController.post(`/login`, ...)]; [t_refresh] and [t_access] are
    the readings of the clock at the two [jwt.sign] calls. *)
Definition post_login (body : Body.t) (t_refresh t_access : Z) : M unit :=
  try_catch
    (let login := Body.login body in
     let password := Body.password body in
     user ← await (findUser login);
     match user with
     | None => res_status_send 400 "Login or password incorrect"
     | Some user =>
         arePasswordsSame ← await (comparePasswords user password);
         if negb arePasswordsSame then
           res_status_send 400 "Login or password incorrect"
         else
           let userPayload := IUserPayload.mk (User.id user) (User.login user) in
           refreshToken ← lift (signRefreshToken env userPayload t_refresh);
           detached (createRefreshToken (User.id user) refreshToken);;
           accessToken ← lift (signAccessToken env userPayload t_access);
           res_cookie (mkCookie "accessToken" (CookieToken accessToken)
                         (1000 * 15) true "/");;
           res_cookie (mkCookie "refreshToken" (CookieToken refreshToken)
                         (1000 * 60 * 60 * 24 * 7) true "/");;
           res_cookie (mkCookie "login" (CookieString (User.login user))
                         (1000 * 60 * 60 * 24 * 7) false "/");;
           res_cookie (mkCookie "id" (CookieNumber (User.id user))
                         (1000 * 60 * 60 * 24 * 7) false "/");;
           res_redirect 200 "/"
     end)
    (fun err =>
       logger_error err;;
       match err with
       | AppError statusCode message => res_status_send statusCode message
       | _ => res_status_send 400 "unknow error"
       end).

(** [authController.get(`/logout`, authUser, ...)] *)
Definition get_logout (locals : Locals.t) : M unit :=
  try_catch
    (if negb (Locals.auth locals) then
       res_status_send 401 "you are not logged in"
     else
       user ← lift (match Locals.user locals with
                    | Some user => Ok user
                    | None => Throw (TypeError "Cannot read properties of undefined")
                    end);
       detached (deleteToken (Locals.refreshToken locals) (IUserPayload.id user));;
       res_clearCookie "accessToken";;
       res_clearCookie "refreshToken";;
       res_clearCookie "id";;
       res_clearCookie "login";;
       res_redirect 200 "/")
    (fun err => logger_error err).
End Routes.
End authController.

(** ** A reference signer and hasher

    Closed examples need the two packages instantiated.  The signer tags a
    signing input with the login followed by the key; the hasher prefixes
    the plaintext.  Neither is cryptography: they only make the model run. *)

Definition ref_mac : JwtMac :=
  fun key m => String.append (IUserPayload.login (fst (fst m))) (String.append ":" key).

Definition ref_bcrypt : Bcrypt :=
  {| bcrypt_hash := fun data rounds salt => String.append "$2b$10$" data;
     bcrypt_compare := fun data encrypted =>
       bool_decide (encrypted = String.append "$2b$10$" data) |}.

(** A configuration with the two secrets set, one with the same value for
    both, and one with none. *)
Definition env_two : gmap string string :=
  <["ACCESS_SECRET_TOKEN" := "access-secret"]>
    (<["REFRESH_SECRET_TOKEN" := "refresh-secret"]> ∅).

Definition env_none : gmap string string := ∅.

Definition alice : User.t := User.mk 1 "alice" "$2b$10$pw1".

Definition db_alice : Db := mkDb [alice] 2 [] true.

Definition alice_body : Body.t := Body.mk "alice" "pw1".

Definition alice_payload : IUserPayload.t := IUserPayload.mk 1 "alice".

(** The refresh token that [alice] is issued at clock reading 5000 under
    [env_two], and a storage that holds its row. *)
Definition alice_refresh : Jwt.t :=
  Jwt.mk alice_payload 5 1296005 "alice:refresh-secret".

Definition db_session : Db := mkDb [alice] 2 [Token.mk alice_refresh 1] true.

(** A configuration that gives both secrets the same value. *)
Definition env_same : gmap string string :=
  <["ACCESS_SECRET_TOKEN" := "secret"]>
    (<["REFRESH_SECRET_TOKEN" := "secret"]> ∅).

Import authenticationService authController.

(** ** Derived values the properties speak of *)

(** The user's identity claim, as [/login] builds it. *)
Definition payload_of (user : User.t) : IUserPayload.t :=
  IUserPayload.mk (User.id user) (User.login user).

(** What [signAccessToken] returns at clock reading [now] once its secret
    has the value [key]. *)
Definition access_token_of `{JwtMac} (key : string) (p : IUserPayload.t) (now : Z) : Jwt.t :=
  Jwt.mk p (now / 1000) (now / 1000 + 10) (hmac key (p, now / 1000, now / 1000 + 10)).

(** The same for [signRefreshToken]. *)
Definition refresh_token_of `{JwtMac} (key : string) (p : IUserPayload.t) (now : Z) : Jwt.t :=
  Jwt.mk p (now / 1000) (now / 1000 + 15 * 24 * 60 * 60)
    (hmac key (p, now / 1000, now / 1000 + 15 * 24 * 60 * 60)).

(** The cookies of a successful [/login]. *)
Definition login_cookies (user : User.t) (accessToken refreshToken : Jwt.t) : list Cookie :=
  [ mkCookie "accessToken" (CookieToken accessToken) 15000 true "/";
    mkCookie "refreshToken" (CookieToken refreshToken) 604800000 true "/";
    mkCookie "login" (CookieString (User.login user)) 604800000 false "/";
    mkCookie "id" (CookieNumber (User.id user)) 604800000 false "/" ].

(** The response of a successful [/login]. *)
Definition login_success (user : User.t) (accessToken refreshToken : Jwt.t) : Res :=
  mkRes (Some 200) None (Some "/") (login_cookies user accessToken refreshToken) [].

(** The one response of a rejected [/login]. *)
Definition login_rejection : Res :=
  mkRes (Some 400) (Some "Login or password incorrect") None [] [].

(** The two responses of [/register]. *)
Definition register_conflict : Res :=
  mkRes (Some 422) (Some "user already exists") None [] [].

Definition register_success : Res :=
  mkRes (Some 201) None (Some "/login") [] [].

(** The response of a [/logout] that went through. *)
Definition logout_success : Res :=
  mkRes (Some 200) None (Some "/") [] ["accessToken"; "refreshToken"; "id"; "login"].

(** The lookup of [findUser] on the rows. *)
Definition lookup_login (login : string) (d : Db) : option User.t :=
  List.find (fun u => bool_decide (User.login u = login)) (users d).

(** The request carries the login and the password of the stored user
    [user], and the storage answers. *)
Definition credentials_of `{Bcrypt} (d : Db) (body : Body.t) (user : User.t) : Prop :=
  online d = true
  /\ lookup_login (Body.login body) d = Some user
  /\ bcrypt_compare (Body.password body) (User.password user) = true.

(** The response of [/login] when something was thrown that is not an
    [AppError]. *)
Definition unknown_error : Res :=
  mkRes (Some 400) (Some "unknow error") None [] [].

(** The response of [/logout] to a caller who is not logged in. *)
Definition not_logged_in : Res :=
  mkRes (Some 401) (Some "you are not logged in") None [] [].

(** What [jwt.sign] throws for a secret without a value. *)
Definition no_secret : Exn := Error "secretOrPrivateKey must have a value".

(** The user row that [/register] has created for [body] on the storage
    [d], the salt drawn being [salt]. *)
Definition registered_user `{Bcrypt} (d : Db) (body : Body.t) (salt : string) : User.t :=
  User.mk (user_seq d) (Body.login body) (bcrypt_hash (Body.password body) 10 salt).

(** A configuration with the refresh secret only, and a storage whose
    connection does not answer. *)
Definition env_refresh_only : gmap string string :=
  <["REFRESH_SECRET_TOKEN" := "refresh-secret"]> ∅.

Definition db_down : Db := mkDb [alice] 2 [] false.

Definition bob_body : Body.t := Body.mk "bob" "pw2".

Definition db_nobody : Db := mkDb [] 1 [] true.

(** A reference digest (the data itself), a salt of 22 characters, and
    two passwords of 73 bytes that differ in the last one. *)
Definition ref_core : BcryptCore := fun data rounds salt => data.

Definition salt22 : string := "abcdefghijklmnopqrstuv".

Fixpoint string_repeat (c : ascii) (n : nat) : string :=
  match n with
  | O => EmptyString
  | S n' => String c (string_repeat c n')
  end.

Definition long_x : string := (string_repeat "a" 72 ++ "x")%string.

Definition long_y : string := (string_repeat "a" 72 ++ "y")%string.

Ltac run_handler :=
  unfold handle, serve, post_register, post_login, get_logout, try_catch,
    res_status_send, res_redirect, res_cookie, res_clearCookie, with_res,
    logger_error, detached, await, lift, findUser, comparePasswords,
    hashPassword, resolved, query, mbind, M_bind, fresh_res; cbn.

(** * Properties *)

(** ** The time spans in the source *)

Example ms_10s : ms "10s" = Some 10000.
Proof. reflexivity. Qed.

Example ms_15d : ms "15d" = Some (15 * 24 * 60 * 60 * 1000).
Proof. reflexivity. Qed.

Example ms_no_unit : ms "10" = Some 10 /\ ms "2 days" = Some 172800000 /\ ms "soon" = None.
Proof. repeat split. Qed.

Lemma timespan_10s (iat : Z) : timespan "10s" iat = Some (iat + 10).
Proof.
  unfold timespan. replace (ms "10s") with (Some 10000) by reflexivity.
  f_equal. replace (iat * 1000 + 10000) with ((iat + 10) * 1000) by lia.
  apply Z.div_mul. lia.
Qed.

Lemma timespan_15d (iat : Z) : timespan "15d" iat = Some (iat + 15 * 24 * 60 * 60).
Proof.
  unfold timespan. replace (ms "15d") with (Some 1296000000) by reflexivity.
  f_equal. replace (iat * 1000 + 1296000000) with ((iat + 15 * 24 * 60 * 60) * 1000) by lia.
  apply Z.div_mul. lia.
Qed.

(** ** The token signer *)

Section Signer.
Context `{JwtMac}.
Variable env : gmap string string.

Lemma signAccessToken_value key p now :
  has_value (env !! "ACCESS_SECRET_TOKEN") = Some key ->
  signAccessToken env p now = Ok (access_token_of key p now).
Proof.
  intros Hk. unfold signAccessToken, jwt_sign. rewrite Hk.
  rewrite timespan_10s. reflexivity.
Qed.

Lemma signRefreshToken_value key p now :
  has_value (env !! "REFRESH_SECRET_TOKEN") = Some key ->
  signRefreshToken env p now = Ok (refresh_token_of key p now).
Proof.
  intros Hk. unfold signRefreshToken, jwt_sign. rewrite Hk.
  rewrite timespan_15d. reflexivity.
Qed.

Lemma signAccessToken_no_value p now :
  has_value (env !! "ACCESS_SECRET_TOKEN") = None ->
  signAccessToken env p now = Throw (Error "secretOrPrivateKey must have a value").
Proof. intros Hk. unfold signAccessToken, jwt_sign. now rewrite Hk. Qed.

Lemma signRefreshToken_no_value p now :
  has_value (env !! "REFRESH_SECRET_TOKEN") = None ->
  signRefreshToken env p now = Throw (Error "secretOrPrivateKey must have a value").
Proof. intros Hk. unfold signRefreshToken, jwt_sign. now rewrite Hk. Qed.

(** A token verifies under the key that signed it until its expiry. *)
Lemma jwt_verify_same_key secret key p iat exp now :
  has_value secret = Some key ->
  jwt_verify (Jwt.mk p iat exp (hmac key (p, iat, exp))) secret now
  = if exp <=? now / 1000 then Throw TokenExpiredError else Ok p.
Proof.
  intros Hk. unfold jwt_verify. rewrite Hk. cbn.
  rewrite bool_decide_eq_true_2 by reflexivity. reflexivity.
Qed.

Lemma has_value_Some secret key : has_value secret = Some key -> secret = Some key.
Proof. destruct secret as [[|c s]|]; cbn; congruence. Qed.

End Signer.

(** ** The session registry *)

Lemma filter_no_match {A} (f : A -> bool) (l : list A) :
  List.existsb f l = false -> List.filter (fun x => negb (f x)) l = l.
Proof.
  induction l as [|x l IH]; cbn; [reflexivity|].
  intros Hex. apply orb_false_iff in Hex as [Hx Hl].
  rewrite Hx. cbn. f_equal. auto.
Qed.

Lemma existsb_filter_negb {A} (f : A -> bool) (l : list A) :
  List.existsb f (List.filter (fun x => negb (f x)) l) = false.
Proof.
  induction l as [|x l IH]; cbn; [reflexivity|].
  destruct (f x) eqn:Hx; cbn; [exact IH|].
  rewrite Hx. exact IH.
Qed.

Lemma db_eta (d : Db) : mkDb (users d) (user_seq d) (tokens d) (online d) = d.
Proof. destruct d; reflexivity. Qed.

Lemma set_online_id (d : Db) : online d = true -> set_online true d = d.
Proof. destruct d; cbn; intros ->; reflexivity. Qed.

(** After a delete that ran, no row matches. *)
Lemma deleteToken_gone token user_id (d : Db) :
  online d = true ->
  existsToken token user_id (snd (deleteToken token user_id d)) = false.
Proof.
  intros Hon. unfold deleteToken, query, existsToken. rewrite Hon. cbn.
  apply existsb_filter_negb.
Qed.

(** A delete with no matching row resolves and leaves the storage as it
    was. *)
Lemma deleteToken_absent token user_id (d : Db) :
  online d = true ->
  existsToken token user_id d = false ->
  deleteToken token user_id d = (Ok tt, d).
Proof.
  destruct d as [us seq ts on]. cbn. intros -> Hex.
  unfold deleteToken, query, existsToken in *. cbn in *.
  now rewrite (filter_no_match _ _ Hex).
Qed.

(** A row just created is found. *)
Lemma createRefreshToken_present user_id token (d : Db) :
  online d = true ->
  existsToken token user_id (snd (createRefreshToken user_id token d)) = true.
Proof.
  intros Hon. unfold createRefreshToken, query, existsToken. rewrite Hon. cbn.
  rewrite existsb_app. cbn. unfold row_matches. cbn.
  rewrite !bool_decide_eq_true_2 by reflexivity. cbn. now rewrite orb_true_r.
Qed.

(** ** The controller *)

Section Controller.
Context `{JwtMac} `{Bcrypt}.
Variable env : gmap string string.

Lemma login_unknown_user (d : Db) body t_refresh t_access :
  online d = true ->
  lookup_login (Body.login body) d = None ->
  handle (post_login env body t_refresh t_access) d = mkWorld d login_rejection [] [].
Proof.
  intros Hon Hfind. unfold lookup_login in Hfind. run_handler.
  rewrite Hon, Hfind. reflexivity.
Qed.

Lemma login_wrong_password (d : Db) body user t_refresh t_access :
  online d = true ->
  lookup_login (Body.login body) d = Some user ->
  bcrypt_compare (Body.password body) (User.password user) = false ->
  handle (post_login env body t_refresh t_access) d = mkWorld d login_rejection [] [].
Proof.
  intros Hon Hfind Hcmp. unfold lookup_login in Hfind. run_handler.
  rewrite Hon, Hfind. cbn. rewrite Hcmp. reflexivity.
Qed.

Lemma login_valid (d : Db) body user access refresh t_refresh t_access :
  credentials_of d body user ->
  has_value (env !! "ACCESS_SECRET_TOKEN") = Some access ->
  has_value (env !! "REFRESH_SECRET_TOKEN") = Some refresh ->
  let accessToken := access_token_of access (payload_of user) t_access in
  let refreshToken := refresh_token_of refresh (payload_of user) t_refresh in
  handle (post_login env body t_refresh t_access) d
  = mkWorld d (login_success user accessToken refreshToken)
      [Pend (createRefreshToken (User.id user) refreshToken)] [].
Proof.
  intros (Hon & Hfind & Hcmp) Ha Hr. unfold lookup_login in Hfind. run_handler.
  rewrite Hon, Hfind. cbn. rewrite Hcmp. cbn.
  fold (payload_of user).
  rewrite (signRefreshToken_value env _ _ _ Hr). cbn.
  rewrite (signAccessToken_value env _ _ _ Ha). cbn.
  reflexivity.
Qed.

Lemma register_handled (d : Db) body salt :
  online d = true ->
  handle (post_register body salt) d
  = match lookup_login (Body.login body) d with
    | Some _ => mkWorld d register_conflict [] []
    | None =>
        mkWorld d register_success
          [Pend (createUser (ICreateUserDto.mk (Body.login body)
                   (bcrypt_hash (Body.password body) 10 salt)))] []
    end.
Proof.
  intros Hon. unfold lookup_login. run_handler. rewrite Hon.
  destruct (find _ _); reflexivity.
Qed.

Lemma logout_handled (d : Db) token user :
  handle (get_logout (Locals.mk true token (Some user))) d
  = mkWorld d logout_success [Pend (deleteToken token (IUserPayload.id user))] [].
Proof. reflexivity. Qed.

End Controller.

(** ** What a request leaves in the storage *)

Section Persistence.
Context `{JwtMac} `{Bcrypt}.
Variable env : gmap string string.

Lemma set_online_online b (d : Db) : online (set_online b d) = b.
Proof. reflexivity. Qed.

Lemma set_online_tokens b (d : Db) : tokens (set_online b d) = tokens d.
Proof. reflexivity. Qed.

(** A query on a connection that does not answer changes nothing. *)
Lemma query_offline {A} (q : Db -> A * Db) (d : Db) :
  online d = false -> query q d = (Throw QueryFailedError, d).
Proof. intros Hoff. unfold query. now rewrite Hoff. Qed.

(** An awaited call throws its rejection into the handler: the contrast
    with [detached], which cannot throw. *)
Lemma await_rejection {A} (p : Promise A) (w : World) e :
  fst (p (db w)) = Throw e -> fst (await p w) = Throw e.
Proof. unfold await. destruct (p (db w)) as [r d']. cbn. now intros ->. Qed.

Lemma detached_never_throws {A} (p : Promise A) (w : World) :
  fst (detached p w) = Ok tt /\ db (snd (detached p w)) = db w.
Proof. split; reflexivity. Qed.

Lemma login_storage (d : Db) body user access refresh t_refresh t_access later :
  credentials_of d body user ->
  has_value (env !! "ACCESS_SECRET_TOKEN") = Some access ->
  has_value (env !! "REFRESH_SECRET_TOKEN") = Some refresh ->
  snd (serve (post_login env body t_refresh t_access) d later)
  = snd (createRefreshToken (User.id user)
           (refresh_token_of refresh (payload_of user) t_refresh) (set_online later d)).
Proof.
  intros Hc Ha Hr. unfold serve.
  rewrite (login_valid env d body user access refresh t_refresh t_access Hc Ha Hr).
  reflexivity.
Qed.

Lemma logout_storage (d : Db) token user later :
  snd (serve (get_logout (Locals.mk true token (Some user))) d later)
  = snd (deleteToken token (IUserPayload.id user) (set_online later d)).
Proof. reflexivity. Qed.

Lemma createRefreshToken_online user_id token (d : Db) :
  online (snd (createRefreshToken user_id token d)) = online d.
Proof. unfold createRefreshToken, query. destruct (online d) eqn:E; cbn; congruence. Qed.

Lemma deleteToken_online token user_id (d : Db) :
  online (snd (deleteToken token user_id d)) = online d.
Proof. unfold deleteToken, query. destruct (online d) eqn:E; cbn; congruence. Qed.

(** Deleting twice is deleting once. *)
Lemma deleteToken_twice token user_id (d : Db) :
  online d = true ->
  deleteToken token user_id (snd (deleteToken token user_id d))
  = (Ok tt, snd (deleteToken token user_id d)).
Proof.
  intros Hon. apply deleteToken_absent.
  - now rewrite deleteToken_online.
  - now apply deleteToken_gone.
Qed.

End Persistence.

(** * The stated properties *)

Section Claims.
Context `{JwtMac} `{Bcrypt}.
Variable env : gmap string string.

(** C1. Revocation dominates signature validity.  A login issues a refresh
    token and its Session Registry row; while the row is there and the
    token has not expired, [verifyRefreshIsActive] holds for the token and
    its user.  Once the logout of that token has deleted the row,
    [verifyRefreshIsActive] for that exact pair is false, although the token
    still verifies under the refresh secret (signature valid, expiry not
    passed). *)
Theorem logout_revokes_refresh_token
    (d : Db) body user access refresh t_refresh t_access now :
  credentials_of d body user ->
  has_value (env !! "ACCESS_SECRET_TOKEN") = Some access ->
  has_value (env !! "REFRESH_SECRET_TOKEN") = Some refresh ->
  now / 1000 < t_refresh / 1000 + 15 * 24 * 60 * 60 ->
  let refreshToken := refresh_token_of refresh (payload_of user) t_refresh in
  let logged_in := snd (serve (post_login env body t_refresh t_access) d true) in
  let logged_out :=
    snd (serve (get_logout (Locals.mk true refreshToken (Some (payload_of user))))
           logged_in true) in
  signRefreshToken env (payload_of user) t_refresh = Ok refreshToken
  /\ verifyRefreshIsActive env refreshToken (User.id user) now logged_in = true
  /\ jwt_verify refreshToken (env !! "REFRESH_SECRET_TOKEN") now = Ok (payload_of user)
  /\ verifyRefreshIsActive env refreshToken (User.id user) now logged_out = false.
Proof.
  intros Hc Ha Hr Hnow refreshToken logged_in logged_out.
  assert (Hon : online d = true) by apply Hc.
  assert (Hverify : jwt_verify refreshToken (env !! "REFRESH_SECRET_TOKEN") now
                    = Ok (payload_of user)).
  { unfold refreshToken, refresh_token_of.
    rewrite (jwt_verify_same_key _ refresh) by exact Hr.
    destruct (Z.leb_spec (t_refresh / 1000 + 15 * 24 * 60 * 60) (now / 1000)); [lia|reflexivity]. }
  assert (Hin : logged_in
                = snd (createRefreshToken (User.id user) refreshToken d)).
  { unfold logged_in.
    rewrite (login_storage env d body user access refresh _ _ true Hc Ha Hr).
    now rewrite set_online_id. }
  assert (Hon1 : online logged_in = true).
  { rewrite Hin, createRefreshToken_online. exact Hon. }
  clearbody logged_in.
  split; [now apply signRefreshToken_value|].
  split.
  { unfold verifyRefreshIsActive. rewrite Hverify, Hin.
    now rewrite createRefreshToken_present. }
  split; [exact Hverify|].
  unfold verifyRefreshIsActive. rewrite Hverify.
  unfold logged_out. rewrite logout_storage.
  rewrite set_online_id by exact Hon1.
  change (IUserPayload.id (payload_of user)) with (User.id user).
  now rewrite deleteToken_gone.
Qed.

(** C8. Logout is idempotent.  For an authenticated caller, a second
    [/logout] with the same refresh token answers as the first one did
    (200, cookies cleared: not an error) and leaves the Session Registry as
    the first one left it; the delete it starts finds no row, resolves, and
    changes nothing. *)
Theorem logout_twice_is_logout_once (d : Db) token user :
  online d = true ->
  let locals := Locals.mk true token (Some user) in
  let first := serve (get_logout locals) d true in
  let second := serve (get_logout locals) (snd first) true in
  fst first = logout_success
  /\ fst second = logout_success
  /\ snd second = snd first
  /\ existsToken token (IUserPayload.id user) (snd first) = false
  /\ deleteToken token (IUserPayload.id user) (snd first) = (Ok tt, snd first).
Proof.
  intros Hon locals first second.
  assert (Hfirst : snd first = snd (deleteToken token (IUserPayload.id user) d)).
  { unfold first, locals. rewrite logout_storage. now rewrite set_online_id. }
  assert (Hon1 : online (snd first) = true).
  { rewrite Hfirst, deleteToken_online. exact Hon. }
  assert (Htwice : deleteToken token (IUserPayload.id user) (snd first) = (Ok tt, snd first)).
  { rewrite Hfirst. now apply deleteToken_twice. }
  split; [reflexivity|]. split; [reflexivity|].
  split.
  { unfold second, locals. rewrite logout_storage.
    rewrite set_online_id by exact Hon1. now rewrite Htwice. }
  split; [|exact Htwice].
  rewrite Hfirst. now apply deleteToken_gone.
Qed.

(** C2. The access token is signed with the value of [ACCESS_SECRET_TOKEN]
    and the refresh token with the value of [REFRESH_SECRET_TOKEN]; nothing
    requires the two values to differ.  For every payload, the token of
    [signAccessToken] fails verification against the refresh secret, with
    an invalid signature, exactly when the refresh secret's signature over
    the token's claims differs from the access secret's; when the two
    signatures coincide, as they do when both secrets have one value, it
    verifies there as it does under its own secret.  The same holds for the
    token of [signRefreshToken] against the access secret. *)
Theorem cross_secret_verification (p : IUserPayload.t) access refresh t_sign now :
  has_value (env !! "ACCESS_SECRET_TOKEN") = Some access ->
  has_value (env !! "REFRESH_SECRET_TOKEN") = Some refresh ->
  exists accessToken refreshToken,
    signAccessToken env p t_sign = Ok accessToken
    /\ signRefreshToken env p t_sign = Ok refreshToken
    /\ Jwt.signature accessToken = hmac access (Jwt.signing_input accessToken)
    /\ Jwt.signature refreshToken = hmac refresh (Jwt.signing_input refreshToken)
    /\ jwt_verify accessToken (env !! "REFRESH_SECRET_TOKEN") now
       = (if bool_decide (hmac access (Jwt.signing_input accessToken)
                          = hmac refresh (Jwt.signing_input accessToken))
          then jwt_verify accessToken (env !! "ACCESS_SECRET_TOKEN") now
          else Throw (JsonWebTokenError "invalid signature"))
    /\ jwt_verify refreshToken (env !! "ACCESS_SECRET_TOKEN") now
       = (if bool_decide (hmac refresh (Jwt.signing_input refreshToken)
                          = hmac access (Jwt.signing_input refreshToken))
          then jwt_verify refreshToken (env !! "REFRESH_SECRET_TOKEN") now
          else Throw (JsonWebTokenError "invalid signature")).
Proof.
  intros Ha Hr.
  exists (access_token_of access p t_sign), (refresh_token_of refresh p t_sign).
  split; [now apply signAccessToken_value|].
  split; [now apply signRefreshToken_value|].
  split; [reflexivity|]. split; [reflexivity|].
  unfold access_token_of, refresh_token_of.
  rewrite (jwt_verify_same_key (env !! "ACCESS_SECRET_TOKEN") access) by exact Ha.
  rewrite (jwt_verify_same_key (env !! "REFRESH_SECRET_TOKEN") refresh) by exact Hr.
  unfold jwt_verify, Jwt.signing_input. rewrite Ha, Hr. cbn.
  split; case_bool_decide; reflexivity.
Qed.

(** C5. Every access token is signed with a lifetime of 10 seconds and
    every refresh token with a lifetime of 15 days, 129600 times as long:
    each carries the payload, the second of its issue as [iat], [exp] one
    lifetime later, and the signature of its own secret over these.  An
    access token verifies under the access secret at the clock reading of
    its issuance and is expired at every reading 10 seconds or more later;
    a refresh token verifies under the refresh secret at its issuance and is
    expired at every reading 15 days or more later. *)
Theorem token_lifetimes (p : IUserPayload.t) access refresh now :
  has_value (env !! "ACCESS_SECRET_TOKEN") = Some access ->
  has_value (env !! "REFRESH_SECRET_TOKEN") = Some refresh ->
  exists accessToken refreshToken,
    signAccessToken env p now = Ok accessToken
    /\ signRefreshToken env p now = Ok refreshToken
    /\ Jwt.exp accessToken - Jwt.iat accessToken = 10
    /\ Jwt.exp refreshToken - Jwt.iat refreshToken = 15 * 24 * 60 * 60
    /\ 129600 * (Jwt.exp accessToken - Jwt.iat accessToken)
       = Jwt.exp refreshToken - Jwt.iat refreshToken
    /\ verifyAccess env accessToken now = Ok p
    /\ (forall later, now + 10 * 1000 <= later ->
          verifyAccess env accessToken later = Throw TokenExpiredError)
    /\ Jwt.payload accessToken = p
    /\ Jwt.payload refreshToken = p
    /\ Jwt.iat accessToken = now / 1000
    /\ Jwt.iat refreshToken = now / 1000
    /\ Jwt.signature accessToken = hmac access (p, now / 1000, now / 1000 + 10)
    /\ Jwt.signature refreshToken
       = hmac refresh (p, now / 1000, now / 1000 + 15 * 24 * 60 * 60)
    /\ jwt_verify refreshToken (env !! "REFRESH_SECRET_TOKEN") now = Ok p
    /\ (forall later, now + 15 * 24 * 60 * 60 * 1000 <= later ->
          jwt_verify refreshToken (env !! "REFRESH_SECRET_TOKEN") later
          = Throw TokenExpiredError).
Proof.
  intros Ha Hr.
  exists (access_token_of access p now), (refresh_token_of refresh p now).
  split; [now apply signAccessToken_value|].
  split; [now apply signRefreshToken_value|].
  split; [cbn; lia|]. split; [cbn; lia|]. split; [cbn; lia|].
  unfold verifyAccess, access_token_of, refresh_token_of.
  split.
  { rewrite (jwt_verify_same_key _ access) by exact Ha.
    destruct (Z.leb_spec (now / 1000 + 10) (now / 1000)); [lia|reflexivity]. }
  split.
  { intros later Hlater.
    rewrite (jwt_verify_same_key _ access) by exact Ha.
    assert (Hdiv : now / 1000 + 10 <= later / 1000).
    { replace (now / 1000 + 10) with ((now + 10 * 1000) / 1000)
        by (rewrite Z.div_add by lia; reflexivity).
      apply Z.div_le_mono; lia. }
    destruct (Z.leb_spec (now / 1000 + 10) (later / 1000)); [reflexivity|lia]. }
  do 6 (split; [reflexivity|]).
  split.
  { rewrite (jwt_verify_same_key _ refresh) by exact Hr.
    destruct (Z.leb_spec (now / 1000 + 15 * 24 * 60 * 60) (now / 1000)); [lia|reflexivity]. }
  intros later Hlater.
  rewrite (jwt_verify_same_key _ refresh) by exact Hr.
  assert (Hdiv : now / 1000 + 15 * 24 * 60 * 60 <= later / 1000).
  { replace (now / 1000 + 15 * 24 * 60 * 60)
      with ((now + 15 * 24 * 60 * 60 * 1000) / 1000)
      by (rewrite Z.div_add by lia; reflexivity).
    apply Z.div_le_mono; lia. }
  destruct (Z.leb_spec (now / 1000 + 15 * 24 * 60 * 60) (later / 1000)); [reflexivity|lia].
Qed.

(** The two rejections of [/login] are one response: unknown login and
    wrong password cannot be told apart. *)
Lemma login_rejections_indistinguishable
    (d d' : Db) body body' user t_refresh t_access t_refresh' t_access' :
  online d = true -> online d' = true ->
  lookup_login (Body.login body) d = None ->
  lookup_login (Body.login body') d' = Some user ->
  bcrypt_compare (Body.password body') (User.password user) = false ->
  res (handle (post_login env body t_refresh t_access) d) = login_rejection
  /\ res (handle (post_login env body' t_refresh' t_access') d') = login_rejection.
Proof.
  intros Hon Hon' Hnone Hsome Hcmp. split.
  - now rewrite login_unknown_user.
  - now rewrite (login_wrong_password env d' body' user).
Qed.

(** C4. A login with a valid login and password builds the payload
    [{id, login}] of the stored user, signs a refresh token over it, starts
    the insertion of that token's Session Registry row for the user, signs
    an access token over the same payload, and answers with both tokens as
    cookies.  Both tokens are made of the payload, the issue and expiry
    times and a signature over these: nothing of the password hash.  Once
    the insertion has run, the registry holds the row. *)
Theorem login_issues_both_tokens
    (d : Db) body user access refresh t_refresh t_access :
  credentials_of d body user ->
  has_value (env !! "ACCESS_SECRET_TOKEN") = Some access ->
  has_value (env !! "REFRESH_SECRET_TOKEN") = Some refresh ->
  let userPayload := IUserPayload.mk (User.id user) (User.login user) in
  exists accessToken refreshToken,
    signRefreshToken env userPayload t_refresh = Ok refreshToken
    /\ signAccessToken env userPayload t_access = Ok accessToken
    /\ refreshToken = refresh_token_of refresh userPayload t_refresh
    /\ accessToken = access_token_of access userPayload t_access
    /\ handle (post_login env body t_refresh t_access) d
       = mkWorld d (login_success user accessToken refreshToken)
           [Pend (createRefreshToken (User.id user) refreshToken)] []
    /\ tokens (snd (serve (post_login env body t_refresh t_access) d true))
       = tokens d ++ [Token.mk refreshToken (User.id user)].
Proof.
  intros Hc Ha Hr userPayload.
  exists (access_token_of access userPayload t_access),
         (refresh_token_of refresh userPayload t_refresh).
  split; [now apply signRefreshToken_value|].
  split; [now apply signAccessToken_value|].
  split; [reflexivity|]. split; [reflexivity|].
  split; [now apply login_valid|].
  rewrite (login_storage env d body user access refresh _ _ true Hc Ha Hr).
  unfold createRefreshToken, query. cbn. reflexivity.
Qed.

(** C7. A register request for a login that the Credential Store already
    holds is rejected (422, "user already exists") and starts no storage
    operation; for a new login the password is hashed with cost 10 and the
    creation of the user with that hash is started, which, once run, adds
    the user row.  In both cases no cookie (so no token) is set and the
    Session Registry is as before. *)
Theorem register_rejects_or_creates (d : Db) body salt (later : bool) :
  online d = true ->
  let w := handle (post_register body salt) d in
  let hashed := bcrypt_hash (Body.password body) 10 salt in
  match lookup_login (Body.login body) d with
  | Some _ =>
      res w = register_conflict
      /\ pending w = []
      /\ snd (serve (post_register body salt) d later) = set_online later d
  | None =>
      res w = register_success
      /\ pending w = [Pend (createUser (ICreateUserDto.mk (Body.login body) hashed))]
      /\ users (snd (serve (post_register body salt) d true))
         = users d ++ [User.mk (user_seq d) (Body.login body) hashed]
  end
  /\ cookies (res w) = []
  /\ tokens (snd (serve (post_register body salt) d later)) = tokens d.
Proof.
  intros Hon w hashed. unfold serve. fold w.
  assert (Hw := register_handled d body salt Hon). fold w in Hw. fold hashed in Hw.
  clearbody w.
  destruct (lookup_login (Body.login body) d) as [found|]; subst w; cbn;
    unfold createUser, query; cbn; destruct later; repeat split.
Qed.

(** C9. The two signing secrets are looked up in [process.env] at every
    signing call.  With its secret set, a signer returns a token for every
    payload at every clock reading; with it missing or empty, the call
    throws at request time.  Under valid credentials [/login] therefore
    succeeds when both secrets have a value and otherwise logs the error
    and answers 400 "unknow error". *)
Theorem secrets_are_read_at_each_call
    (d : Db) body user t_refresh t_access (p : IUserPayload.t) now :
  credentials_of d body user ->
  signAccessToken env p now
  = match has_value (env !! "ACCESS_SECRET_TOKEN") with
    | Some access => Ok (access_token_of access p now)
    | None => Throw no_secret
    end
  /\ signRefreshToken env p now
     = match has_value (env !! "REFRESH_SECRET_TOKEN") with
       | Some refresh => Ok (refresh_token_of refresh p now)
       | None => Throw no_secret
       end
  /\ res (handle (post_login env body t_refresh t_access) d)
     = match has_value (env !! "REFRESH_SECRET_TOKEN"),
             has_value (env !! "ACCESS_SECRET_TOKEN") with
       | Some refresh, Some access =>
           login_success user (access_token_of access (payload_of user) t_access)
             (refresh_token_of refresh (payload_of user) t_refresh)
       | _, _ => unknown_error
       end
  /\ logged (handle (post_login env body t_refresh t_access) d)
     = match has_value (env !! "REFRESH_SECRET_TOKEN"),
             has_value (env !! "ACCESS_SECRET_TOKEN") with
       | Some _, Some _ => []
       | _, _ => [no_secret]
       end.
Proof.
  intros (Hon & Hfind & Hcmp). unfold lookup_login in Hfind.
  assert (Hsa : signAccessToken env p now
                = match has_value (env !! "ACCESS_SECRET_TOKEN") with
                  | Some access => Ok (access_token_of access p now)
                  | None => Throw no_secret
                  end).
  { destruct (has_value (env !! "ACCESS_SECRET_TOKEN")) eqn:Ha.
    - now apply signAccessToken_value.
    - now apply signAccessToken_no_value. }
  assert (Hsr : signRefreshToken env p now
                = match has_value (env !! "REFRESH_SECRET_TOKEN") with
                  | Some refresh => Ok (refresh_token_of refresh p now)
                  | None => Throw no_secret
                  end).
  { destruct (has_value (env !! "REFRESH_SECRET_TOKEN")) eqn:Hr.
    - now apply signRefreshToken_value.
    - now apply signRefreshToken_no_value. }
  split; [exact Hsa|]. split; [exact Hsr|].
  run_handler. rewrite Hon, Hfind. cbn. rewrite Hcmp. cbn.
  fold (payload_of user).
  destruct (has_value (env !! "REFRESH_SECRET_TOKEN")) as [refresh|] eqn:Hr.
  - rewrite (signRefreshToken_value env _ _ _ Hr). cbn.
    destruct (has_value (env !! "ACCESS_SECRET_TOKEN")) as [access|] eqn:Ha.
    + rewrite (signAccessToken_value env _ _ _ Ha). split; reflexivity.
    + rewrite (signAccessToken_no_value env _ _ Ha). split; reflexivity.
  - rewrite (signRefreshToken_no_value env _ _ Hr). split; reflexivity.
Qed.

(** C10. Neither success response waits for its storage write.  Every
    login that passes password verification answers with the success
    response and the storage untouched, the insertion of the refresh-token
    row only started; the response is the same whether that insertion later
    succeeds (the row appears) or fails (the registry stays as it was).
    Every register request for a new login answers 201 in the same way,
    whether the user row is later created or not. *)
Theorem responses_do_not_await_persistence :
  (forall (d : Db) body user access refresh t_refresh t_access (later : bool),
     credentials_of d body user ->
     has_value (env !! "ACCESS_SECRET_TOKEN") = Some access ->
     has_value (env !! "REFRESH_SECRET_TOKEN") = Some refresh ->
     let accessToken := access_token_of access (payload_of user) t_access in
     let refreshToken := refresh_token_of refresh (payload_of user) t_refresh in
     let login := post_login env body t_refresh t_access in
     fst (serve login d later) = login_success user accessToken refreshToken
     /\ db (handle login d) = d
     /\ pending (handle login d) = [Pend (createRefreshToken (User.id user) refreshToken)]
     /\ tokens (snd (serve login d true)) = tokens d ++ [Token.mk refreshToken (User.id user)]
     /\ tokens (snd (serve login d false)) = tokens d)
  /\ (forall (d : Db) newcomer salt (later : bool),
        online d = true ->
        lookup_login (Body.login newcomer) d = None ->
        let register := post_register newcomer salt in
        let hashed := bcrypt_hash (Body.password newcomer) 10 salt in
        fst (serve register d later) = register_success
        /\ db (handle register d) = d
        /\ pending (handle register d)
           = [Pend (createUser (ICreateUserDto.mk (Body.login newcomer) hashed))]
        /\ users (snd (serve register d true))
           = users d ++ [User.mk (user_seq d) (Body.login newcomer) hashed]
        /\ users (snd (serve register d false)) = users d).
Proof.
  split.
  - intros d body user access refresh t_refresh t_access later Hc Ha Hr
      accessToken refreshToken login.
    assert (Hl := login_valid env d body user access refresh t_refresh t_access Hc Ha Hr).
    cbv zeta in Hl. fold accessToken refreshToken login in Hl.
    unfold serve. rewrite Hl. cbn.
    unfold createRefreshToken, query. cbn. repeat split.
  - intros d newcomer salt later Hon Hnew register hashed.
    assert (Hg := register_handled d newcomer salt Hon).
    rewrite Hnew in Hg. fold register hashed in Hg.
    unfold serve. rewrite Hg. cbn.
    unfold createUser, query. cbn. repeat split.
Qed.

End Claims.

(** ** The password hasher *)

Lemma append_inj_r (p s1 s2 : string) :
  String.append p s1 = String.append p s2 -> s1 = s2.
Proof. induction p as [|c p IH]; cbn; [auto|]. intros Heq. injection Heq. exact IH. Qed.

Lemma string_take_append (n : nat) (s t : string) :
  String.length s = n -> string_take n (String.append s t) = s.
Proof.
  intros <-. induction s as [|c s IH]; [reflexivity|].
  change (String.append (String c s) t) with (String c (String.append s t)).
  cbn. now rewrite IH.
Qed.

Lemma strip_prefix_append (pre s : string) :
  strip_prefix pre (String.append pre s) = Some s.
Proof.
  induction pre as [|c pre IH]; [reflexivity|].
  change (String.append (String c pre) s) with (String c (String.append pre s)).
  cbn. now rewrite Ascii.eqb_refl.
Qed.

Lemma bcrypt_format_10 (salt digest : string) :
  bcrypt_format 10 salt digest
  = String.append "$2b$10$" (String.append salt digest).
Proof. reflexivity. Qed.

Lemma bcrypt_parse_format (salt digest : string) :
  String.length salt = 22%nat ->
  bcrypt_parse (bcrypt_format 10 salt digest) = Some (10, salt).
Proof.
  intros Hlen. rewrite bcrypt_format_10.
  change (bcrypt_parse (String.append "$2b$10$" (String.append salt digest)))
    with (let found := string_take 22 (String.append salt digest) in
          if (String.length found =? 22)%nat then Some (10, found) else None).
  cbv zeta. rewrite (string_take_append 22 salt digest Hlen).
  now rewrite Hlen.
Qed.

Section Hasher.
Context `{core : BcryptCore}.

Lemma bcrypt_compare_digests (p q salt : string) :
  String.length salt = 22%nat ->
  @bcrypt_compare (bcrypt_of core) p (@bcrypt_hash (bcrypt_of core) q 10 salt)
  = bool_decide (eksblowfish (string_take 72 p) 10 salt
                 = eksblowfish (string_take 72 q) 10 salt).
Proof.
  intros Hlen. cbn [bcrypt_compare bcrypt_hash bcrypt_of].
  rewrite (bcrypt_parse_format _ _ Hlen).
  apply bool_decide_ext. rewrite !bcrypt_format_10. split.
  - intros Heq. apply append_inj_r in Heq. now apply append_inj_r in Heq.
  - now intros ->.
Qed.

(** C6. [hashPassword] hashes with [bcrypt] at cost 10 under the salt
    drawn for the call: the hash is [$2b$10$], the salt, and the digest of
    the first 72 bytes of the plaintext, so it differs from every plaintext
    that does not itself begin with [$2b$10$].  [comparePasswords] accepts
    a plaintext against the hash made of it, and accepts [p] against the
    hash of [q] exactly when the digests of their first 72 bytes under the
    hash's salt coincide: always when [p] and [q] agree on those bytes,
    whatever follows. *)
Theorem password_hasher (p q salt : string) (user_id : Z) (login : string) (d : Db) :
  String.length salt = 22%nat ->
  let hashed :=
    String.append "$2b$10$"
      (String.append salt (eksblowfish (string_take 72 q) 10 salt)) in
  let user := User.mk user_id login hashed in
  @hashPassword (bcrypt_of core) q salt d = (Ok hashed, d)
  /\ (strip_prefix "$2b$10$" q = None -> hashed <> q)
  /\ @comparePasswords (bcrypt_of core) user q d = (Ok true, d)
  /\ @comparePasswords (bcrypt_of core) user p d
     = (Ok (bool_decide (eksblowfish (string_take 72 p) 10 salt
                         = eksblowfish (string_take 72 q) 10 salt)), d)
  /\ (string_take 72 p = string_take 72 q ->
      @comparePasswords (bcrypt_of core) user p d = (Ok true, d)).
Proof.
  intros Hlen hashed user.
  assert (Hhash : @bcrypt_hash (bcrypt_of core) q 10 salt = hashed) by reflexivity.
  assert (Hcmp : forall x,
             @comparePasswords (bcrypt_of core) user x d
             = (Ok (bool_decide (eksblowfish (string_take 72 x) 10 salt
                                 = eksblowfish (string_take 72 q) 10 salt)), d)).
  { intros x. unfold comparePasswords, resolved, user. cbn [User.password].
    rewrite <- Hhash. now rewrite (bcrypt_compare_digests x q salt Hlen). }
  split; [reflexivity|].
  split.
  { intros Hform Heq. rewrite <- Heq in Hform. unfold hashed in Hform.
    rewrite strip_prefix_append in Hform. discriminate. }
  split; [rewrite Hcmp; now rewrite bool_decide_eq_true_2|].
  split; [apply Hcmp|].
  intros Hsame. rewrite Hcmp, Hsame. now rewrite bool_decide_eq_true_2.
Qed.

End Hasher.

(** * Closed instances *)

(** C3. At a login that is not in the Credential Store and at a wrong
    password for a stored login, [/login] sends one and the same response,
    and its status is 400, not 401. *)
Theorem login_rejection_is_status_400 :
  res (handle (@post_login ref_mac ref_bcrypt env_two (Body.mk "bob" "pw1") 5000 5001) db_alice)
  = login_rejection
  /\ res (handle (@post_login ref_mac ref_bcrypt env_two (Body.mk "alice" "wrong") 5000 5001) db_alice)
     = login_rejection
  /\ statusCode login_rejection = Some 400
  /\ statusCode login_rejection <> Some 401.
Proof. repeat split. discriminate. Qed.

(** With one value for both secrets, a token of [signAccessToken] verifies
    against the refresh secret: the separation of the two token classes is
    a matter of the configured values. *)
Example same_value_cross_verifies :
  jwt_verify (H:=ref_mac) (access_token_of (H:=ref_mac) "secret" alice_payload 5000)
    (env_same !! "REFRESH_SECRET_TOKEN") 5000 = Ok alice_payload.
Proof. reflexivity. Qed.

(** A missing secret surfaces in the request: [/login] with valid
    credentials answers 400 "unknow error". *)
Example login_without_secrets :
  res (handle (@post_login ref_mac ref_bcrypt env_none alice_body 5000 5001) db_alice)
  = mkRes (Some 400) (Some "unknow error") None [] [].
Proof. reflexivity. Qed.

Lemma logout_revokes_refresh_token_witness :
  verifyRefreshIsActive (H:=ref_mac) env_two alice_refresh 1 6000
    (snd (serve (@post_login ref_mac ref_bcrypt env_two alice_body 5000 5001) db_alice true))
  = true
  /\ verifyRefreshIsActive (H:=ref_mac) env_two alice_refresh 1 6000
       (snd (serve (get_logout (Locals.mk true alice_refresh (Some alice_payload)))
               (snd (serve (@post_login ref_mac ref_bcrypt env_two alice_body 5000 5001)
                       db_alice true)) true))
     = false.
Proof.
  assert (Hc : @credentials_of ref_bcrypt db_alice alice_body alice)
    by (repeat split).
  assert (Ha : has_value (env_two !! "ACCESS_SECRET_TOKEN") = Some "access-secret")
    by reflexivity.
  assert (Hr : has_value (env_two !! "REFRESH_SECRET_TOKEN") = Some "refresh-secret")
    by reflexivity.
  assert (Hnow : 6000 / 1000 < 5000 / 1000 + 15 * 24 * 60 * 60) by reflexivity.
  destruct (@logout_revokes_refresh_token ref_mac ref_bcrypt env_two db_alice alice_body
              alice "access-secret" "refresh-secret" 5000 5001 6000 Hc Ha Hr Hnow)
    as (_ & Hactive & _ & Hrevoked).
  split; [exact Hactive | exact Hrevoked].
Defined.

Lemma logout_twice_is_logout_once_witness :
  let locals := Locals.mk true alice_refresh (Some alice_payload) in
  snd (serve (get_logout locals) (snd (serve (get_logout locals) db_session true)) true)
  = snd (serve (get_logout locals) db_session true).
Proof.
  assert (Hon : online db_session = true) by reflexivity.
  destruct (logout_twice_is_logout_once db_session alice_refresh alice_payload Hon)
    as (_ & _ & Hsame & _).
  exact Hsame.
Defined.

(** C2, refuted as stated: with one value for both secrets, the token of
    [signAccessToken] verifies against the refresh secret and the token of
    [signRefreshToken] against the access secret. *)
Lemma one_secret_value_defeats_separation :
  signAccessToken (H:=ref_mac) env_same alice_payload 5000
  = Ok (access_token_of (H:=ref_mac) "secret" alice_payload 5000)
  /\ jwt_verify (H:=ref_mac) (access_token_of (H:=ref_mac) "secret" alice_payload 5000)
       (env_same !! "REFRESH_SECRET_TOKEN") 5000 = Ok alice_payload
  /\ signRefreshToken (H:=ref_mac) env_same alice_payload 5000
     = Ok (refresh_token_of (H:=ref_mac) "secret" alice_payload 5000)
  /\ jwt_verify (H:=ref_mac) (refresh_token_of (H:=ref_mac) "secret" alice_payload 5000)
       (env_same !! "ACCESS_SECRET_TOKEN") 5000 = Ok alice_payload.
Proof. repeat split. Qed.

Lemma cross_secret_verification_witness :
  exists accessToken refreshToken,
    signAccessToken (H:=ref_mac) env_two alice_payload 5000 = Ok accessToken
    /\ signRefreshToken (H:=ref_mac) env_two alice_payload 5000 = Ok refreshToken
    /\ jwt_verify (H:=ref_mac) accessToken (env_two !! "REFRESH_SECRET_TOKEN") 5000
       = Throw (JsonWebTokenError "invalid signature")
    /\ jwt_verify (H:=ref_mac) refreshToken (env_two !! "ACCESS_SECRET_TOKEN") 5000
       = Throw (JsonWebTokenError "invalid signature").
Proof.
  assert (Ha : has_value (env_two !! "ACCESS_SECRET_TOKEN") = Some "access-secret")
    by reflexivity.
  assert (Hr : has_value (env_two !! "REFRESH_SECRET_TOKEN") = Some "refresh-secret")
    by reflexivity.
  destruct (@cross_secret_verification ref_mac env_two alice_payload "access-secret"
              "refresh-secret" 5000 5000 Ha Hr)
    as (accessToken & refreshToken & Hsa & Hsr & _ & _ & Hva & Hvr).
  exists accessToken, refreshToken.
  split; [exact Hsa|]. split; [exact Hsr|].
  rewrite Hva, Hvr.
  rewrite (signAccessToken_value env_two _ _ _ Ha) in Hsa. injection Hsa as <-.
  rewrite (signRefreshToken_value env_two _ _ _ Hr) in Hsr. injection Hsr as <-.
  split; reflexivity.
Defined.

Lemma token_lifetimes_witness :
  exists accessToken,
    signAccessToken (H:=ref_mac) env_two alice_payload 5000 = Ok accessToken
    /\ verifyAccess (H:=ref_mac) env_two accessToken 5000 = Ok alice_payload
    /\ verifyAccess (H:=ref_mac) env_two accessToken 15000 = Throw TokenExpiredError.
Proof.
  assert (Ha : has_value (env_two !! "ACCESS_SECRET_TOKEN") = Some "access-secret")
    by reflexivity.
  assert (Hr : has_value (env_two !! "REFRESH_SECRET_TOKEN") = Some "refresh-secret")
    by reflexivity.
  destruct (@token_lifetimes ref_mac env_two alice_payload "access-secret" "refresh-secret"
              5000 Ha Hr)
    as (accessToken & refreshToken & Hsa & _ & _ & _ & _ & Hnow & Hlater & _).
  exists accessToken. repeat split; [exact Hsa | exact Hnow |].
  apply Hlater. lia.
Defined.

Lemma login_issues_both_tokens_witness :
  tokens (snd (serve (@post_login ref_mac ref_bcrypt env_two alice_body 5000 5001)
                 db_alice true))
  = [Token.mk alice_refresh 1].
Proof.
  assert (Hc : @credentials_of ref_bcrypt db_alice alice_body alice)
    by (repeat split).
  assert (Ha : has_value (env_two !! "ACCESS_SECRET_TOKEN") = Some "access-secret")
    by reflexivity.
  assert (Hr : has_value (env_two !! "REFRESH_SECRET_TOKEN") = Some "refresh-secret")
    by reflexivity.
  destruct (@login_issues_both_tokens ref_mac ref_bcrypt env_two db_alice alice_body alice
              "access-secret" "refresh-secret" 5000 5001 Hc Ha Hr)
    as (accessToken & refreshToken & _ & _ & Hrt & _ & _ & Hrows).
  rewrite Hrows, Hrt. reflexivity.
Defined.

Lemma register_rejects_or_creates_witness :
  res (handle (@post_register ref_bcrypt alice_body "salt") db_alice) = register_conflict
  /\ snd (serve (@post_register ref_bcrypt alice_body "salt") db_alice true) = db_alice.
Proof.
  assert (Hon : online db_alice = true) by reflexivity.
  destruct (@register_rejects_or_creates ref_bcrypt db_alice alice_body "salt" true Hon)
    as ((Hres & _ & Hdb) & _ & _).
  split; [exact Hres | exact Hdb].
Defined.

Lemma responses_do_not_await_persistence_witness :
  statusCode (fst (serve (@post_login ref_mac ref_bcrypt env_two alice_body 5000 5001)
                     db_alice false)) = Some 200
  /\ tokens (snd (serve (@post_login ref_mac ref_bcrypt env_two alice_body 5000 5001)
                    db_alice false)) = []
  /\ fst (serve (@post_register ref_bcrypt bob_body "salt") db_nobody false)
     = register_success
  /\ users (snd (serve (@post_register ref_bcrypt bob_body "salt") db_nobody false)) = [].
Proof.
  assert (Hc : @credentials_of ref_bcrypt db_alice alice_body alice)
    by (repeat split).
  assert (Ha : has_value (env_two !! "ACCESS_SECRET_TOKEN") = Some "access-secret")
    by reflexivity.
  assert (Hr : has_value (env_two !! "REFRESH_SECRET_TOKEN") = Some "refresh-secret")
    by reflexivity.
  assert (Hon : online db_nobody = true) by reflexivity.
  assert (Hnew : lookup_login (Body.login bob_body) db_nobody = None) by reflexivity.
  destruct (@responses_do_not_await_persistence ref_mac ref_bcrypt env_two)
    as (Hlogin & Hregister).
  destruct (Hlogin db_alice alice_body alice "access-secret" "refresh-secret" 5000 5001
              false Hc Ha Hr)
    as (Hres & _ & _ & _ & Hrows).
  destruct (Hregister db_nobody bob_body "salt" false Hon Hnew)
    as (Hreg & _ & _ & _ & Husers).
  rewrite Hres, Hrows, Hreg, Husers. repeat split.
Defined.

(** C9, refuted as stated: with no secret in [process.env] both signers
    throw when called, and [/login] with valid credentials answers 400
    "unknow error" in the request; with the secrets set in [process.env]
    the same call returns a token. *)
Lemma missing_secret_fails_in_the_request :
  signAccessToken (H:=ref_mac) env_none alice_payload 5000 = Throw no_secret
  /\ signRefreshToken (H:=ref_mac) env_none alice_payload 5000 = Throw no_secret
  /\ handle (@post_login ref_mac ref_bcrypt env_none alice_body 5000 5001) db_alice
     = mkWorld db_alice unknown_error [] [no_secret]
  /\ is_ok (signAccessToken (H:=ref_mac) env_two alice_payload 5000) = true.
Proof. repeat split. Qed.

Lemma secrets_are_read_at_each_call_witness :
  res (handle (@post_login ref_mac ref_bcrypt env_refresh_only alice_body 5000 5001) db_alice)
  = unknown_error
  /\ signAccessToken (H:=ref_mac) env_refresh_only alice_payload 5000 = Throw no_secret.
Proof.
  assert (Hc : @credentials_of ref_bcrypt db_alice alice_body alice)
    by (repeat split).
  destruct (@secrets_are_read_at_each_call ref_mac ref_bcrypt env_refresh_only db_alice
              alice_body alice 5000 5001 alice_payload 5000 Hc)
    as (Hsa & _ & Hres & _).
  split; [exact Hres | exact Hsa].
Defined.

(** C6, refuted as stated: two different plaintexts of 73 bytes that agree
    on the first 72; the one is accepted against the hash of the other. *)
Lemma long_passwords_share_a_hash :
  long_x <> long_y
  /\ @hashPassword (bcrypt_of ref_core) long_y salt22 db_alice
     = (Ok (@bcrypt_hash (bcrypt_of ref_core) long_y 10 salt22), db_alice)
  /\ @comparePasswords (bcrypt_of ref_core)
       (User.mk 1 "alice" (@bcrypt_hash (bcrypt_of ref_core) long_y 10 salt22))
       long_x db_alice
     = (Ok true, db_alice).
Proof.
  split; [apply String.eqb_neq; reflexivity|].
  split; reflexivity.
Qed.

Lemma password_hasher_witness :
  @comparePasswords (bcrypt_of ref_core)
    (User.mk 1 "alice" (@bcrypt_hash (bcrypt_of ref_core) "pw1" 10 salt22)) "pw1" db_alice
  = (Ok true, db_alice)
  /\ @comparePasswords (bcrypt_of ref_core)
       (User.mk 1 "alice" (@bcrypt_hash (bcrypt_of ref_core) "pw1" 10 salt22)) "pw2" db_alice
     = (Ok false, db_alice).
Proof.
  assert (Hlen : String.length salt22 = 22%nat) by reflexivity.
  destruct (@password_hasher ref_core "pw2" "pw1" salt22 1 "alice" db_alice Hlen)
    as (_ & _ & Hsame & Hother & _).
  split; [exact Hsame | exact Hother].
Defined.

(** * Further properties of the service and the controller *)

Lemma find_app_last {A} (f : A -> bool) (l : list A) (x : A) :
  List.find f l = None -> f x = true -> List.find f (l ++ [x]) = Some x.
Proof.
  induction l as [|y l IH]; cbn; intros Hnone Hx.
  - now rewrite Hx.
  - destruct (f y); [discriminate|]. now apply IH.
Qed.

Lemma div_1000_bound (e t : Z) : e <= t / 1000 <-> e * 1000 <= t.
Proof.
  split; intros Hle.
  - pose proof (Z.mul_div_le t 1000 ltac:(lia)). lia.
  - apply Z.div_le_lower_bound; lia.
Qed.

Section Further.
Context `{JwtMac} `{Bcrypt}.
Variable env : gmap string string.

(** Every run of [/login], by cases on what it meets. *)
Lemma login_handled (d : Db) body t_refresh t_access :
  handle (post_login env body t_refresh t_access) d
  = if online d then
      match lookup_login (Body.login body) d with
      | None => mkWorld d login_rejection [] []
      | Some user =>
          if bcrypt_compare (Body.password body) (User.password user) then
            match has_value (env !! "REFRESH_SECRET_TOKEN") with
            | None => mkWorld d unknown_error [] [no_secret]
            | Some refresh =>
                let refreshToken := refresh_token_of refresh (payload_of user) t_refresh in
                let started := [Pend (createRefreshToken (User.id user) refreshToken)] in
                match has_value (env !! "ACCESS_SECRET_TOKEN") with
                | None => mkWorld d unknown_error started [no_secret]
                | Some access =>
                    mkWorld d
                      (login_success user
                         (access_token_of access (payload_of user) t_access) refreshToken)
                      started []
                end
            end
          else mkWorld d login_rejection [] []
      end
    else mkWorld d unknown_error [] [QueryFailedError].
Proof.
  unfold lookup_login. run_handler.
  destruct (online d); [|reflexivity].
  destruct (find _ _) as [user|]; [|reflexivity]. cbn.
  destruct (bcrypt_compare _ _); [|reflexivity]. cbn.
  fold (payload_of user).
  destruct (has_value (env !! "REFRESH_SECRET_TOKEN")) as [refresh|] eqn:Hr.
  - rewrite (signRefreshToken_value env _ _ _ Hr). cbn.
    destruct (has_value (env !! "ACCESS_SECRET_TOKEN")) as [access|] eqn:Ha.
    + rewrite (signAccessToken_value env _ _ _ Ha). reflexivity.
    + rewrite (signAccessToken_no_value env _ _ Ha). reflexivity.
  - rewrite (signRefreshToken_no_value env _ _ Hr). reflexivity.
Qed.

(** Every run of [/register]. *)
Lemma register_handled_all (d : Db) body salt :
  handle (post_register body salt) d
  = if online d then
      match lookup_login (Body.login body) d with
      | Some _ => mkWorld d register_conflict [] []
      | None =>
          mkWorld d register_success
            [Pend (createUser (ICreateUserDto.mk (Body.login body)
                     (bcrypt_hash (Body.password body) 10 salt)))] []
      end
    else mkWorld d fresh_res [] [QueryFailedError].
Proof.
  destruct (online d) eqn:Hon; [now apply register_handled|].
  run_handler. now rewrite Hon.
Qed.

(** Every run of [/logout]. *)
Lemma logout_handled_all (d : Db) locals :
  handle (get_logout locals) d
  = if Locals.auth locals then
      match Locals.user locals with
      | Some user =>
          mkWorld d logout_success
            [Pend (deleteToken (Locals.refreshToken locals) (IUserPayload.id user))] []
      | None =>
          mkWorld d fresh_res [] [TypeError "Cannot read properties of undefined"]
      end
    else mkWorld d not_logged_in [] [].
Proof. destruct locals as [[|] token [user|]]; reflexivity. Qed.

(** What the storage is once a started write has run. *)
Lemma createRefreshToken_storage user_id token (d : Db) :
  online d = true ->
  snd (createRefreshToken user_id token d)
  = mkDb (users d) (user_seq d) (tokens d ++ [Token.mk token user_id]) true.
Proof. intros Hon. unfold createRefreshToken, query. rewrite Hon. reflexivity. Qed.

Lemma register_storage (d : Db) body salt :
  online d = true ->
  lookup_login (Body.login body) d = None ->
  snd (serve (post_register body salt) d true)
  = mkDb (users d ++ [registered_user d body salt]) (user_seq d + 1) (tokens d) true.
Proof.
  intros Hon Hnew. unfold serve. rewrite register_handled_all, Hon, Hnew. cbn.
  unfold createUser, query. cbn. reflexivity.
Qed.

Lemma lookup_registered (d : Db) body salt :
  lookup_login (Body.login body) d = None ->
  lookup_login (Body.login body)
    (mkDb (users d ++ [registered_user d body salt]) (user_seq d + 1) (tokens d) true)
  = Some (registered_user d body salt).
Proof.
  intros Hnew. unfold lookup_login in *. cbn. apply find_app_last; [exact Hnew|].
  cbn. now apply bool_decide_eq_true_2.
Qed.

(** X1. [/login] answers 200 or sets a cookie only when the storage holds a
    user with the login of the request whose hash the password compares
    to, and both secrets have a value; the response is then the success
    response for that user. *)
Theorem login_succeeds_only_for_valid_credentials (d : Db) body t_refresh t_access :
  statusCode (res (handle (post_login env body t_refresh t_access) d)) = Some 200
  \/ cookies (res (handle (post_login env body t_refresh t_access) d)) <> [] ->
  exists user access refresh,
    credentials_of d body user
    /\ has_value (env !! "ACCESS_SECRET_TOKEN") = Some access
    /\ has_value (env !! "REFRESH_SECRET_TOKEN") = Some refresh
    /\ res (handle (post_login env body t_refresh t_access) d)
       = login_success user (access_token_of access (payload_of user) t_access)
           (refresh_token_of refresh (payload_of user) t_refresh).
Proof.
  rewrite login_handled. unfold credentials_of.
  destruct (online d) eqn:Hon; [|cbn; intros [?|?]; congruence].
  destruct (lookup_login (Body.login body) d) as [user|] eqn:Hfind;
    [|cbn; intros [?|?]; congruence].
  destruct (bcrypt_compare _ _) eqn:Hcmp; [|cbn; intros [?|?]; congruence].
  destruct (has_value (env !! "REFRESH_SECRET_TOKEN")) as [refresh|];
    [|cbn; intros [?|?]; congruence].
  destruct (has_value (env !! "ACCESS_SECRET_TOKEN")) as [access|];
    [|cbn; intros [?|?]; congruence].
  intros _. exists user, access, refresh. repeat split; auto.
Qed.

(** X2. With valid credentials and the refresh secret set but the access
    secret without a value, [/login] answers 400 "unknow error" and sets no
    cookie, yet the insertion of the refresh token's row was already
    started: once it has run, the Session Registry holds a row for a token
    that no caller received. *)
Theorem login_without_access_secret_leaves_a_row
    (d : Db) body user refresh t_refresh t_access :
  credentials_of d body user ->
  has_value (env !! "ACCESS_SECRET_TOKEN") = None ->
  has_value (env !! "REFRESH_SECRET_TOKEN") = Some refresh ->
  let refreshToken := refresh_token_of refresh (payload_of user) t_refresh in
  fst (serve (post_login env body t_refresh t_access) d true) = unknown_error
  /\ logged (handle (post_login env body t_refresh t_access) d) = [no_secret]
  /\ tokens (snd (serve (post_login env body t_refresh t_access) d true))
     = tokens d ++ [Token.mk refreshToken (User.id user)].
Proof.
  intros (Hon & Hfind & Hcmp) Ha Hr refreshToken. unfold serve.
  rewrite login_handled, Hon, Hfind, Hcmp, Hr, Ha. cbn.
  unfold createRefreshToken, query. cbn. repeat split.
Qed.

(** X3. When the storage does not answer, [/login] answers 400 "unknow
    error", [/register] logs the rejection and sends no response at all,
    and neither starts a storage operation; [/logout] of an authenticated
    caller, which reads nothing, answers 200 as usual. *)
Theorem handlers_when_the_storage_is_down
    (d : Db) body salt t_refresh t_access token user :
  online d = false ->
  handle (post_login env body t_refresh t_access) d
  = mkWorld d unknown_error [] [QueryFailedError]
  /\ handle (post_register body salt) d = mkWorld d fresh_res [] [QueryFailedError]
  /\ res (handle (get_logout (Locals.mk true token (Some user))) d) = logout_success.
Proof.
  intros Hoff. rewrite login_handled, register_handled_all, Hoff. repeat split.
Qed.

(** X4. [/logout] starts a delete, clears a cookie or answers 200 only for
    a caller that the middleware marked authenticated and gave a user; it
    then starts exactly the delete of the caller's refresh token for that
    user's id, clears the four cookies and answers 200. *)
Theorem logout_acts_only_when_authenticated (d : Db) locals :
  pending (handle (get_logout locals) d) <> []
  \/ cleared (res (handle (get_logout locals) d)) <> []
  \/ statusCode (res (handle (get_logout locals) d)) = Some 200 ->
  Locals.auth locals = true
  /\ exists user,
       Locals.user locals = Some user
       /\ handle (get_logout locals) d
          = mkWorld d logout_success
              [Pend (deleteToken (Locals.refreshToken locals) (IUserPayload.id user))] [].
Proof.
  rewrite logout_handled_all.
  destruct (Locals.auth locals); [|cbn; intros [?|[?|?]]; congruence].
  destruct (Locals.user locals) as [user|]; [|cbn; intros [?|[?|?]]; congruence].
  intros _. split; [reflexivity|]. now exists user.
Qed.

(** X5. A caller not marked authenticated gets 401 "you are not logged
    in"; a caller marked authenticated for whom the middleware left no
    user gets no response at all, the [TypeError] being logged.  In both
    cases nothing is deleted and no cookie is cleared. *)
Theorem logout_refusals (d : Db) locals :
  Locals.auth locals = false \/ Locals.user locals = None ->
  handle (get_logout locals) d
  = if Locals.auth locals
    then mkWorld d fresh_res [] [TypeError "Cannot read properties of undefined"]
    else mkWorld d not_logged_in [] [].
Proof.
  rewrite logout_handled_all. intros [Hauth|Huser].
  - now rewrite Hauth.
  - now rewrite Huser.
Qed.

(** X6. Register, then log in.  After [/register] for a new login has
    answered and its user row has been created, [/login] with the same
    body succeeds for the user with the generated id and the new login,
    provided the hasher accepts the password against the hash it made of
    it; with another password that the hasher refuses it is rejected. *)
Theorem register_then_login
    (d : Db) body salt other access refresh t_refresh t_access :
  online d = true ->
  lookup_login (Body.login body) d = None ->
  bcrypt_compare (Body.password body) (bcrypt_hash (Body.password body) 10 salt) = true ->
  bcrypt_compare other (bcrypt_hash (Body.password body) 10 salt) = false ->
  has_value (env !! "ACCESS_SECRET_TOKEN") = Some access ->
  has_value (env !! "REFRESH_SECRET_TOKEN") = Some refresh ->
  let registered := snd (serve (post_register body salt) d true) in
  let user := registered_user d body salt in
  res (handle (post_login env body t_refresh t_access) registered)
  = login_success user (access_token_of access (payload_of user) t_access)
      (refresh_token_of refresh (payload_of user) t_refresh)
  /\ res (handle (post_login env (Body.mk (Body.login body) other) t_refresh t_access)
            registered)
     = login_rejection.
Proof.
  intros Hon Hnew Hsame Hother Ha Hr registered user.
  unfold registered. rewrite (register_storage d body salt Hon Hnew).
  rewrite !login_handled. cbn [online Body.login Body.password].
  rewrite (lookup_registered d body salt Hnew).
  cbn [User.password registered_user]. rewrite Hsame, Hother, Hr, Ha.
  split; reflexivity.
Qed.

(** X7. Register twice.  Once the user row of a first [/register] exists,
    another [/register] for the same login, whatever its password, is
    rejected with 422 and starts nothing; the storage keeps the one row
    the first request added. *)
Theorem register_twice_conflicts (d : Db) body salt again salt' (later : bool) :
  online d = true ->
  lookup_login (Body.login body) d = None ->
  Body.login again = Body.login body ->
  let registered := snd (serve (post_register body salt) d true) in
  users registered = users d ++ [registered_user d body salt]
  /\ handle (post_register again salt') registered
     = mkWorld registered register_conflict [] []
  /\ users (snd (serve (post_register again salt') registered later)) = users registered.
Proof.
  intros Hon Hnew Hagain registered.
  assert (Hh : handle (post_register again salt') registered
               = mkWorld registered register_conflict [] []).
  { unfold registered. rewrite (register_storage d body salt Hon Hnew).
    rewrite register_handled_all. cbn [online]. rewrite Hagain.
    now rewrite (lookup_registered d body salt Hnew). }
  split; [unfold registered; now rewrite (register_storage d body salt Hon Hnew)|].
  split; [exact Hh|].
  unfold serve. rewrite Hh. reflexivity.
Qed.

(** X8. Two logins, two sessions.  Two successive logins of one user,
    each with its insertion run, add two rows to the Session Registry, one
    per refresh token, after the rows that were there: a login never
    replaces a row. *)
Theorem two_logins_two_rows
    (d : Db) body user access refresh t1 t1' t2 t2' :
  credentials_of d body user ->
  has_value (env !! "ACCESS_SECRET_TOKEN") = Some access ->
  has_value (env !! "REFRESH_SECRET_TOKEN") = Some refresh ->
  let first := snd (serve (post_login env body t1 t1') d true) in
  let second := snd (serve (post_login env body t2 t2') first true) in
  tokens second
  = tokens d
    ++ [Token.mk (refresh_token_of refresh (payload_of user) t1) (User.id user);
        Token.mk (refresh_token_of refresh (payload_of user) t2) (User.id user)].
Proof.
  intros Hc Ha Hr first second.
  assert (Hon : online d = true) by apply Hc.
  assert (Hfirst : first = mkDb (users d) (user_seq d)
            (tokens d ++ [Token.mk (refresh_token_of refresh (payload_of user) t1)
                            (User.id user)]) true).
  { unfold first. rewrite (login_storage env d body user access refresh _ _ true Hc Ha Hr).
    rewrite set_online_id by exact Hon. now apply createRefreshToken_storage. }
  assert (Hc1 : credentials_of first body user).
  { rewrite Hfirst. destruct Hc as (_ & Hfind & Hcmp). repeat split; assumption. }
  unfold second.
  rewrite (login_storage env first body user access refresh _ _ true Hc1 Ha Hr).
  rewrite set_online_id by apply Hc1.
  rewrite createRefreshToken_storage by apply Hc1.
  rewrite Hfirst. cbn. now rewrite <- app_assoc.
Qed.

(** A signer that returned a token had a secret with a value. *)
Lemma signAccessToken_Ok p now tok :
  signAccessToken env p now = Ok tok ->
  exists key, has_value (env !! "ACCESS_SECRET_TOKEN") = Some key
              /\ tok = access_token_of key p now.
Proof.
  intros Hs. destruct (has_value (env !! "ACCESS_SECRET_TOKEN")) as [key|] eqn:Hk.
  - rewrite (signAccessToken_value env _ _ _ Hk) in Hs. exists key. split; congruence.
  - rewrite (signAccessToken_no_value env _ _ Hk) in Hs. discriminate.
Qed.

Lemma signRefreshToken_Ok p now tok :
  signRefreshToken env p now = Ok tok ->
  exists key, has_value (env !! "REFRESH_SECRET_TOKEN") = Some key
              /\ tok = refresh_token_of key p now.
Proof.
  intros Hs. destruct (has_value (env !! "REFRESH_SECRET_TOKEN")) as [key|] eqn:Hk.
  - rewrite (signRefreshToken_value env _ _ _ Hk) in Hs. exists key. split; congruence.
  - rewrite (signRefreshToken_no_value env _ _ Hk) in Hs. discriminate.
Qed.

Lemma leb_1000 (e t : Z) : (e <=? t / 1000) = (e * 1000 <=? t).
Proof.
  destruct (Z.leb_spec e (t / 1000)) as [Hle|Hlt];
    destruct (Z.leb_spec (e * 1000) t) as [Hle'|Hlt']; try reflexivity.
  - apply div_1000_bound in Hle. lia.
  - apply div_1000_bound in Hle'. lia.
Qed.

(** X9. The exact window of validity.  A token of [signAccessToken]
    verifies under the access secret at every clock reading before the
    end of the tenth second after the second of its issue, and is expired
    from then on; the same for [signRefreshToken] with 15 days.  The
    lifetime counts from the start of the second of issue, and a reading
    before the issue is accepted. *)
Theorem token_validity_windows (p : IUserPayload.t) now later accessToken refreshToken :
  signAccessToken env p now = Ok accessToken ->
  signRefreshToken env p now = Ok refreshToken ->
  jwt_verify accessToken (env !! "ACCESS_SECRET_TOKEN") later
  = (if (now / 1000 + 10) * 1000 <=? later then Throw TokenExpiredError else Ok p)
  /\ jwt_verify refreshToken (env !! "REFRESH_SECRET_TOKEN") later
     = (if (now / 1000 + 15 * 24 * 60 * 60) * 1000 <=? later
        then Throw TokenExpiredError else Ok p).
Proof.
  intros Hsa Hsr.
  apply signAccessToken_Ok in Hsa as (access & Ha & ->).
  apply signRefreshToken_Ok in Hsr as (refresh & Hr & ->).
  unfold access_token_of, refresh_token_of.
  rewrite (jwt_verify_same_key _ access) by exact Ha.
  rewrite (jwt_verify_same_key _ refresh) by exact Hr.
  now rewrite !leb_1000.
Qed.

(** X10. Tokens signed for one payload at two clock readings of the same
    second are one and the same token, for both signers: nothing in a
    token tells two issues within a second apart. *)
Theorem tokens_of_one_second_coincide (p : IUserPayload.t) t1 t2 :
  t1 / 1000 = t2 / 1000 ->
  signAccessToken env p t1 = signAccessToken env p t2
  /\ signRefreshToken env p t1 = signRefreshToken env p t2.
Proof.
  intros Hsec. unfold signAccessToken, signRefreshToken, jwt_sign.
  now rewrite Hsec.
Qed.

(** X11. When the configuration gives both secrets one value, a token of
    [signRefreshToken] verifies under the access secret for the whole of
    its 15 days: the short life of access tokens is then no bound. *)
Theorem one_secret_lets_refresh_pass_as_access
    (p : IUserPayload.t) now later refreshToken :
  env !! "ACCESS_SECRET_TOKEN" = env !! "REFRESH_SECRET_TOKEN" ->
  signRefreshToken env p now = Ok refreshToken ->
  later < (now / 1000 + 15 * 24 * 60 * 60) * 1000 ->
  jwt_verify refreshToken (env !! "ACCESS_SECRET_TOKEN") later = Ok p.
Proof.
  intros Hsame Hsr Hlater.
  apply signRefreshToken_Ok in Hsr as (refresh & Hr & ->).
  rewrite Hsame. unfold refresh_token_of.
  rewrite (jwt_verify_same_key _ refresh) by exact Hr.
  rewrite leb_1000.
  destruct (Z.leb_spec ((now / 1000 + 15 * 24 * 60 * 60) * 1000) later); [lia|reflexivity].
Qed.

(** X12. Cookie and token lifetimes differ.  After a successful login the
    [accessToken] cookie lives 15 seconds, so from 10 to 15 seconds after
    the login it still carries a token that verification rejects as
    expired; the [refreshToken] cookie lives 7 days, and the token it
    carried still verifies after the cookie is gone, up to its 15 days. *)
Theorem cookies_and_tokens_expire_apart
    (d : Db) body user access refresh t_refresh t_access later later' :
  credentials_of d body user ->
  has_value (env !! "ACCESS_SECRET_TOKEN") = Some access ->
  has_value (env !! "REFRESH_SECRET_TOKEN") = Some refresh ->
  t_access + 10 * 1000 <= later ->
  t_refresh + 1000 * 60 * 60 * 24 * 7 <= later' ->
  later' < (t_refresh / 1000 + 15 * 24 * 60 * 60) * 1000 ->
  exists a r accessToken refreshToken,
    In a (cookies (res (handle (post_login env body t_refresh t_access) d)))
    /\ In r (cookies (res (handle (post_login env body t_refresh t_access) d)))
    /\ cookie_name a = "accessToken" /\ cookie_value a = CookieToken accessToken
    /\ cookie_name r = "refreshToken" /\ cookie_value r = CookieToken refreshToken
    /\ maxAge a = 15 * 1000
    /\ maxAge r = 7 * 24 * 60 * 60 * 1000
    /\ jwt_verify accessToken (env !! "ACCESS_SECRET_TOKEN") later = Throw TokenExpiredError
    /\ t_refresh + maxAge r <= later'
    /\ jwt_verify refreshToken (env !! "REFRESH_SECRET_TOKEN") later'
       = Ok (payload_of user).
Proof.
  intros Hc Ha Hr Hlater Hgone Hlive.
  rewrite (login_valid env d body user access refresh t_refresh t_access Hc Ha Hr).
  eexists _, _, _, _. cbn [res cookies login_success login_cookies].
  split; [left; reflexivity|]. split; [right; left; reflexivity|].
  cbn [cookie_name cookie_value maxAge].
  split; [reflexivity|]. split; [reflexivity|].
  split; [reflexivity|]. split; [reflexivity|]. split; [reflexivity|].
  split; [reflexivity|].
  unfold access_token_of, refresh_token_of.
  rewrite (jwt_verify_same_key _ access) by exact Ha.
  rewrite (jwt_verify_same_key _ refresh) by exact Hr.
  rewrite !leb_1000.
  pose proof (Z.mul_div_le t_access 1000 ltac:(lia)).
  split; [destruct (Z.leb_spec ((t_access / 1000 + 10) * 1000) later); [reflexivity|lia]|].
  split; [lia|].
  destruct (Z.leb_spec ((t_refresh / 1000 + 15 * 24 * 60 * 60) * 1000) later');
    [lia|reflexivity].
Qed.

(** X13. No handler changes the storage before it has answered, whatever
    the request, the configuration and the storage: every write of the
    three handlers is a started, un-awaited call. *)
Theorem handlers_write_nothing_before_answering
    (d : Db) body salt t_refresh t_access locals :
  db (handle (post_login env body t_refresh t_access) d) = d
  /\ db (handle (post_register body salt) d) = d
  /\ db (handle (get_logout locals) d) = d.
Proof.
  rewrite login_handled, register_handled_all, logout_handled_all.
  repeat split; repeat case_match; reflexivity.
Qed.

(** X14. [/register] answers 201 or starts a storage operation only when
    the storage answered and held no user with the login; what it starts
    is then the creation of that login with the cost-10 hash of the
    password, never of the password itself. *)
Theorem register_creates_only_new_logins (d : Db) body salt :
  statusCode (res (handle (post_register body salt) d)) = Some 201
  \/ pending (handle (post_register body salt) d) <> [] ->
  online d = true
  /\ lookup_login (Body.login body) d = None
  /\ handle (post_register body salt) d
     = mkWorld d register_success
         [Pend (createUser (ICreateUserDto.mk (Body.login body)
                  (bcrypt_hash (Body.password body) 10 salt)))] [].
Proof.
  rewrite register_handled_all.
  destruct (online d); [|cbn; intros [?|?]; congruence].
  destruct (lookup_login (Body.login body) d); [cbn; intros [?|?]; congruence|].
  intros _. repeat split.
Qed.

End Further.

(** ** Closed instances of the further properties *)

Lemma login_succeeds_only_for_valid_credentials_witness :
  exists user, credentials_of (H:=ref_bcrypt) db_alice alice_body user.
Proof.
  destruct (@login_succeeds_only_for_valid_credentials ref_mac ref_bcrypt env_two
              db_alice alice_body 5000 5001 (or_introl eq_refl))
    as (user & _ & _ & Hc & _).
  exists user. exact Hc.
Defined.

Lemma login_without_access_secret_leaves_a_row_witness :
  fst (serve (@post_login ref_mac ref_bcrypt env_refresh_only alice_body 5000 5001)
         db_alice true) = unknown_error
  /\ tokens (snd (serve (@post_login ref_mac ref_bcrypt env_refresh_only alice_body 5000 5001)
                    db_alice true)) = [Token.mk alice_refresh 1].
Proof.
  assert (Hc : @credentials_of ref_bcrypt db_alice alice_body alice)
    by (repeat split).
  assert (Ha : has_value (env_refresh_only !! "ACCESS_SECRET_TOKEN") = None)
    by reflexivity.
  assert (Hr : has_value (env_refresh_only !! "REFRESH_SECRET_TOKEN") = Some "refresh-secret")
    by reflexivity.
  destruct (@login_without_access_secret_leaves_a_row ref_mac ref_bcrypt env_refresh_only
              db_alice alice_body alice "refresh-secret" 5000 5001 Hc Ha Hr)
    as (Hres & _ & Hrows).
  split; [exact Hres | exact Hrows].
Defined.

Lemma handlers_when_the_storage_is_down_witness :
  res (handle (@post_login ref_mac ref_bcrypt env_two alice_body 5000 5001) db_down)
  = unknown_error
  /\ res (handle (@post_register ref_bcrypt bob_body "salt") db_down) = fresh_res.
Proof.
  assert (Hoff : online db_down = false) by reflexivity.
  destruct (@handlers_when_the_storage_is_down ref_mac ref_bcrypt env_two db_down
              alice_body "salt" 5000 5001 alice_refresh alice_payload Hoff)
    as (Hlogin & _ & _).
  destruct (@handlers_when_the_storage_is_down ref_mac ref_bcrypt env_two db_down
              bob_body "salt" 5000 5001 alice_refresh alice_payload Hoff)
    as (_ & Hregister & _).
  rewrite Hlogin, Hregister. split; reflexivity.
Defined.

Lemma logout_acts_only_when_authenticated_witness :
  Locals.auth (Locals.mk true alice_refresh (Some alice_payload)) = true.
Proof.
  destruct (logout_acts_only_when_authenticated db_session
              (Locals.mk true alice_refresh (Some alice_payload))
              (or_intror (or_intror eq_refl)))
    as (Hauth & _).
  exact Hauth.
Defined.

Lemma logout_refusals_witness :
  handle (get_logout (Locals.mk false alice_refresh (Some alice_payload))) db_session
  = mkWorld db_session not_logged_in [] [].
Proof.
  exact (logout_refusals db_session (Locals.mk false alice_refresh (Some alice_payload))
           (or_introl eq_refl)).
Defined.

Lemma register_then_login_witness :
  statusCode (res (handle (@post_login ref_mac ref_bcrypt env_two bob_body 5000 5001)
                     (snd (serve (@post_register ref_bcrypt bob_body "salt") db_alice true))))
  = Some 200
  /\ res (handle (@post_login ref_mac ref_bcrypt env_two (Body.mk "bob" "nope") 5000 5001)
            (snd (serve (@post_register ref_bcrypt bob_body "salt") db_alice true)))
     = login_rejection.
Proof.
  assert (Hon : online db_alice = true) by reflexivity.
  assert (Hnew : lookup_login (Body.login bob_body) db_alice = None) by reflexivity.
  assert (Hsame : @bcrypt_compare ref_bcrypt (Body.password bob_body)
                    (@bcrypt_hash ref_bcrypt (Body.password bob_body) 10 "salt") = true)
    by reflexivity.
  assert (Hother : @bcrypt_compare ref_bcrypt "nope"
                     (@bcrypt_hash ref_bcrypt (Body.password bob_body) 10 "salt") = false)
    by reflexivity.
  assert (Ha : has_value (env_two !! "ACCESS_SECRET_TOKEN") = Some "access-secret")
    by reflexivity.
  assert (Hr : has_value (env_two !! "REFRESH_SECRET_TOKEN") = Some "refresh-secret")
    by reflexivity.
  destruct (@register_then_login ref_mac ref_bcrypt env_two db_alice bob_body "salt" "nope"
              "access-secret" "refresh-secret" 5000 5001 Hon Hnew Hsame Hother Ha Hr)
    as (Hok & Hrej).
  split; [rewrite Hok; reflexivity | exact Hrej].
Defined.

Lemma register_twice_conflicts_witness :
  handle (@post_register ref_bcrypt (Body.mk "bob" "other") "pepper")
    (snd (serve (@post_register ref_bcrypt bob_body "salt") db_alice true))
  = mkWorld (snd (serve (@post_register ref_bcrypt bob_body "salt") db_alice true))
      register_conflict [] [].
Proof.
  assert (Hon : online db_alice = true) by reflexivity.
  assert (Hnew : lookup_login (Body.login bob_body) db_alice = None) by reflexivity.
  assert (Hagain : Body.login (Body.mk "bob" "other") = Body.login bob_body) by reflexivity.
  destruct (@register_twice_conflicts ref_bcrypt db_alice bob_body "salt"
              (Body.mk "bob" "other") "pepper" true Hon Hnew Hagain)
    as (_ & Hconflict & _).
  exact Hconflict.
Defined.

Lemma two_logins_two_rows_witness :
  length (tokens (snd (serve (@post_login ref_mac ref_bcrypt env_two alice_body 9000 9001)
                         (snd (serve (@post_login ref_mac ref_bcrypt env_two alice_body
                                        5000 5001) db_alice true)) true)))
  = 2%nat.
Proof.
  assert (Hc : @credentials_of ref_bcrypt db_alice alice_body alice)
    by (repeat split).
  assert (Ha : has_value (env_two !! "ACCESS_SECRET_TOKEN") = Some "access-secret")
    by reflexivity.
  assert (Hr : has_value (env_two !! "REFRESH_SECRET_TOKEN") = Some "refresh-secret")
    by reflexivity.
  rewrite (@two_logins_two_rows ref_mac ref_bcrypt env_two db_alice alice_body alice
             "access-secret" "refresh-secret" 5000 5001 9000 9001 Hc Ha Hr).
  reflexivity.
Defined.

Lemma token_validity_windows_witness :
  jwt_verify (H:=ref_mac) (access_token_of (H:=ref_mac) "access-secret" alice_payload 5999)
    (env_two !! "ACCESS_SECRET_TOKEN") 14999 = Ok alice_payload
  /\ jwt_verify (H:=ref_mac) (access_token_of (H:=ref_mac) "access-secret" alice_payload 5999)
       (env_two !! "ACCESS_SECRET_TOKEN") 15000 = Throw TokenExpiredError.
Proof.
  assert (Hsa : signAccessToken (H:=ref_mac) env_two alice_payload 5999
                = Ok (access_token_of (H:=ref_mac) "access-secret" alice_payload 5999))
    by reflexivity.
  assert (Hsr : signRefreshToken (H:=ref_mac) env_two alice_payload 5999
                = Ok (refresh_token_of (H:=ref_mac) "refresh-secret" alice_payload 5999))
    by reflexivity.
  destruct (@token_validity_windows ref_mac env_two alice_payload 5999 14999 _ _ Hsa Hsr)
    as (Hin & _).
  destruct (@token_validity_windows ref_mac env_two alice_payload 5999 15000 _ _ Hsa Hsr)
    as (Hout & _).
  split; [exact Hin | exact Hout].
Defined.

Lemma tokens_of_one_second_coincide_witness :
  signRefreshToken (H:=ref_mac) env_two alice_payload 5000
  = signRefreshToken (H:=ref_mac) env_two alice_payload 5999.
Proof.
  assert (Hsec : 5000 / 1000 = 5999 / 1000) by reflexivity.
  destruct (@tokens_of_one_second_coincide ref_mac env_two alice_payload 5000 5999 Hsec)
    as (_ & Hrefresh).
  exact Hrefresh.
Defined.

Lemma one_secret_lets_refresh_pass_as_access_witness :
  jwt_verify (H:=ref_mac) (refresh_token_of (H:=ref_mac) "secret" alice_payload 5000)
    (env_same !! "ACCESS_SECRET_TOKEN") 86400000 = Ok alice_payload.
Proof.
  assert (Hsame : env_same !! "ACCESS_SECRET_TOKEN" = env_same !! "REFRESH_SECRET_TOKEN")
    by reflexivity.
  assert (Hsr : signRefreshToken (H:=ref_mac) env_same alice_payload 5000
                = Ok (refresh_token_of (H:=ref_mac) "secret" alice_payload 5000))
    by reflexivity.
  assert (Hlater : 86400000 < (5000 / 1000 + 15 * 24 * 60 * 60) * 1000) by reflexivity.
  exact (@one_secret_lets_refresh_pass_as_access ref_mac env_same alice_payload 5000
           86400000 _ Hsame Hsr Hlater).
Defined.

Lemma cookies_and_tokens_expire_apart_witness :
  exists accessToken,
    jwt_verify (H:=ref_mac) accessToken (env_two !! "ACCESS_SECRET_TOKEN") 15001
    = Throw TokenExpiredError.
Proof.
  assert (Hc : @credentials_of ref_bcrypt db_alice alice_body alice)
    by (repeat split).
  assert (Ha : has_value (env_two !! "ACCESS_SECRET_TOKEN") = Some "access-secret")
    by reflexivity.
  assert (Hr : has_value (env_two !! "REFRESH_SECRET_TOKEN") = Some "refresh-secret")
    by reflexivity.
  assert (Hlater : 5001 + 10 * 1000 <= 15001) by lia.
  assert (Hgone : 5000 + 1000 * 60 * 60 * 24 * 7 <= 604805000) by lia.
  assert (Hlive : 604805000 < (5000 / 1000 + 15 * 24 * 60 * 60) * 1000) by reflexivity.
  destruct (@cookies_and_tokens_expire_apart ref_mac ref_bcrypt env_two db_alice alice_body
              alice "access-secret" "refresh-secret" 5000 5001 15001 604805000
              Hc Ha Hr Hlater Hgone Hlive)
    as (a & r & accessToken & refreshToken & _ & _ & _ & _ & _ & _ & _ & _ & Hexp & _).
  exists accessToken. exact Hexp.
Defined.

Lemma register_creates_only_new_logins_witness :
  lookup_login (Body.login bob_body) db_alice = None.
Proof.
  destruct (@register_creates_only_new_logins ref_bcrypt db_alice bob_body "salt"
              (or_introl eq_refl))
    as (_ & Hnew & _).
  exact Hnew.
Defined.
